(** * FileMaker MCP server: the gateway of [filemaker_mcp_server.py]

    A shallow embedding of the connection wrapper ([FileMakerConnection]),
    the connection registry ([get_connection]), the resource reader
    ([read_resource]) and the tool router ([call_tool]), followed by the
    properties of the gateway that the specification states.

    The ODBC driver (pyodbc) is outside the repository.  It is taken as a
    record of answer functions ([Driver]); every call the gateway makes to
    it is appended to a trace kept in the state, so that "no connection was
    attempted" and "this statement text reached the driver" are observable.
    Logging has no part in the results and is left out, as is the closing of
    cursors; a document serialised by [json.dumps] is kept as the document. *)

From Stdlib Require Import ZArith Lia.
From stdpp Require Import base option list strings pretty gmap sorting.

Local Open Scope Z_scope.
#[local] Set Warnings "-register-all".

(** ** Python values *)

(** The values that travel through the gateway: JSON arguments, bound
    parameters, row values and the documents handed to [json.dumps].
    A [dict] keeps insertion order, so it is an association list with unique
    keys ([dict_set] overwrites in place).  Floating point numbers are not
    represented. *)
Inductive pyval : Type :=
  | PNone
  | PBool (b : bool)
  | PInt (n : Z)
  | PStr (s : string)
  | PList (l : list pyval)
  | PDict (d : list (string * pyval)).

Abbreviation pydict := (list (string * pyval)).

(** [d.get(k)] / [k in d]. *)
Fixpoint dict_get {V : Type} (k : string) (d : list (string * V)) : option V :=
  match d with
  | [] => None
  | (k', v) :: d' => if String.eqb k k' then Some v else dict_get k d'
  end.

(** [d[k] = v]: an existing key keeps its position and takes the new value,
    a new key goes to the end. *)
Fixpoint dict_set {V : Type} (k : string) (v : V) (d : list (string * V))
  : list (string * V) :=
  match d with
  | [] => [(k, v)]
  | (k', v') :: d' =>
      if String.eqb k k' then (k', v) :: d' else (k', v') :: dict_set k v d'
  end.

(** [dict(pairs)]: the pairs are stored one after the other.  With
    [zip(xs, ys)], which pairs by position and stops at the shorter sequence
    (the library's [zip]), this is [dict(zip(xs, ys))]. *)
Definition dict_of_pairs {V : Type} (ps : list (string * V)) : list (string * V) :=
  fold_left (fun d p => dict_set (fst p) (snd p) d) ps [].

Definition dict_keys {V : Type} (d : list (string * V)) : list string := map fst d.
Definition dict_values {V : Type} (d : list (string * V)) : list V := map snd d.

(** Truth value of a Python object, as tested by [if x:] and [x or y]. *)
Definition truthy (v : pyval) : bool :=
  match v with
  | PNone => false
  | PBool b => b
  | PInt n => negb (n =? 0)
  | PStr s => negb (String.eqb s "")
  | PList l => match l with [] => false | _ => true end
  | PDict d => match d with [] => false | _ => true end
  end.

(** ** Strings *)

Definition dq : string := String (Ascii.ascii_of_nat 34) "".
Definition nl : string := String (Ascii.ascii_of_nat 10) "".

(** [sep.join(parts)]. *)
Fixpoint join (sep : string) (parts : list string) : string :=
  match parts with
  | [] => ""
  | [p] => p
  | p :: rest => p +:+ sep +:+ join sep rest
  end.

(** [s.startswith(p)]. *)
Definition startswith (p s : string) : bool := String.prefix p s.

(** [s.replace(old, "")] for a non-empty [old]: occurrences are removed from
    left to right without overlap.  [skip] counts the characters of a match
    still to be dropped. *)
Fixpoint remove_all_from (old : string) (skip : nat) (s : string) : string :=
  match s with
  | EmptyString => EmptyString
  | String c s' =>
      match skip with
      | S n => remove_all_from old n s'
      | O =>
          if String.prefix old s
          then remove_all_from old (Nat.pred (String.length old)) s'
          else String c (remove_all_from old O s')
      end
  end.

Definition remove_all (old s : string) : string := remove_all_from old O s.

(** ** Exceptions *)

(** The exception classes that occur; all derive from [Exception].
    [OdbcError] stands for [pyodbc.Error] and its subclasses and carries the
    text that [str] gives. *)
Inductive exn : Type :=
  | KeyError (key : string)
  | RuntimeError (msg : string)
  | ValueError (msg : string)
  | TypeError (msg : string)
  | AttributeError (msg : string)
  | OdbcError (msg : string).

(** [str(e)].  A [KeyError] prints the [repr] of the missing key; the keys
    looked up by the gateway are the fixed argument names, whose [repr] is the
    name between single quotes. *)
Definition str_exn (e : exn) : string :=
  match e with
  | KeyError k => "'" +:+ k +:+ "'"
  | RuntimeError m | ValueError m | TypeError m | AttributeError m
  | OdbcError m => m
  end.

(** ** The driver and the state of the gateway *)

(** A [pyodbc.Connection] object, named by the driver. *)
Definition handle : Type := nat.

(** One entry of [cursor.description]; the gateway reads [desc[0]], the name. *)
Record descriptor : Type := { desc_name : string; desc_type_code : string }.

(** What a cursor holds after [execute]: the description ([None] when the
    statement produced no result set), the rows not yet fetched, and
    [rowcount]. *)
Record cursor_result : Type := {
  description : option (list descriptor);
  pending : list (list pyval);
  rowcount : Z
}.

(** Rows of the catalog calls [cursor.tables()] and [cursor.columns()]. *)
Record table_row : Type := { table_name : string; table_type : string }.
Record column_row : Type := {
  column_name : string;
  type_name : string;
  column_size : pyval;
  nullable : Z
}.

(** The answers of the driver. *)
Record Driver : Type := {
  odbc_connect : string -> exn + handle;
  odbc_execute : handle -> string -> list pyval -> exn + cursor_result;
  odbc_commit : handle -> exn + unit;
  odbc_tables : handle -> exn + list table_row;
  odbc_columns : handle -> string -> exn + list column_row
}.

(** The calls made to the driver, in order. *)
Inductive event : Type :=
  | EvConnect (connection_string : string)
  | EvExecute (h : handle) (sql : string) (params : list pyval)
  | EvFetchMany (h : handle) (size : pyval)
  | EvCommit (h : handle)
  | EvTables (h : handle)
  | EvColumns (h : handle) (table : string).

Record FileMakerConfig : Type := {
  dsn : string;
  username : string;
  password : string;
  database : string
}.

(** A [FileMakerConnection] object.  [oid] is the identity of the object
    ([id(conn)]): every construction takes a fresh one. *)
Record FileMakerConnection : Type := {
  oid : nat;
  config : FileMakerConfig;
  _connection : option handle
}.

(** The mutable state of [create_server]: the [connections] dictionary, the
    next object identity, and the trace of driver calls. *)
Record state : Type := {
  connections : gmap string FileMakerConnection;
  next_oid : nat;
  trace : list event
}.

Definition initial_state : state :=
  {| connections := ∅; next_oid := O; trace := [] |}.

(** ** Computations that may raise *)

(** A computation runs from a state to either a raised exception or a value,
    and the state it leaves; what was done before a raise stays done. *)
Definition M (A : Type) : Type := state -> (exn + A) * state.

#[global] Instance M_ret : MRet M := fun A (a : A) st => (inr a, st).

#[global] Instance M_bind : MBind M := fun A B (f : A -> M B) (m : M A) st =>
  match m st with
  | (inl e, st') => (inl e, st')
  | (inr a, st') => f a st'
  end.

Definition raise {A : Type} (e : exn) : M A := fun st => (inl e, st).

(** [try: body  except Exception as e: handler(e)]. *)
Definition try_except {A : Type} (body : M A) (handler : exn -> M A) : M A :=
  fun st =>
    match body st with
    | (inl e, st') => handler e st'
    | (inr a, st') => (inr a, st')
    end.

Definition lift {A : Type} (r : exn + A) : M A := fun st => (r, st).

Definition emit (ev : event) : M unit := fun st =>
  (inr tt, {| connections := connections st;
              next_oid := next_oid st;
              trace := trace st ++ [ev] |}).

Definition get_connections : M (gmap string FileMakerConnection) :=
  fun st => (inr (connections st), st).

Definition set_connection (name : string) (conn : FileMakerConnection) : M unit :=
  fun st =>
    (inr tt, {| connections := <[name := conn]> (connections st);
                next_oid := next_oid st;
                trace := trace st |}).

(** [FileMakerConnection(config)]. *)
Definition new_FileMakerConnection (cfg : FileMakerConfig) : M FileMakerConnection :=
  fun st =>
    (inr {| oid := next_oid st; config := cfg; _connection := None |},
     {| connections := connections st;
        next_oid := S (next_oid st);
        trace := trace st |}).

(** ** [FileMakerConnection] *)

Section Connection.

Variable drv : Driver.

(** The connection string of [connect]: the parts that are set, joined
    with [;]. *)
Definition connection_string (cfg : FileMakerConfig) (db : string) : string :=
  let conn_parts := ["DSN=" +:+ dsn cfg] in
  let conn_parts :=
    if negb (String.eqb db "") then conn_parts ++ ["ServerDataSource=" +:+ db]
    else conn_parts in
  let conn_parts :=
    if negb (String.eqb (username cfg) "")
    then conn_parts ++ ["UID=" +:+ username cfg] else conn_parts in
  let conn_parts :=
    if negb (String.eqb (password cfg) "")
    then conn_parts ++ ["PWD=" +:+ password cfg] else conn_parts in
  join ";" conn_parts.

(** [connect(self, database=None)]: builds the connection string, asks the
    driver, stores the handle in the object.  The updated object is
    returned next to the driver's handle. *)
Definition connect (self : FileMakerConnection) (name : option string)
  : M (FileMakerConnection * handle) :=
  let db := match name with
            | Some n => if negb (String.eqb n "") then n else database (config self)
            | None => database (config self)
            end in
  let cs := connection_string (config self) db in
  _ ← emit (EvConnect cs);
  h ← lift (odbc_connect drv cs);
  mret ({| oid := oid self; config := config self; _connection := Some h |}, h).

(** [close(self)]. *)
Definition close (self : FileMakerConnection) : FileMakerConnection :=
  match _connection self with
  | Some _ => {| oid := oid self; config := config self; _connection := None |}
  | None => self
  end.

(** [cursor.execute(query, params)] or [cursor.execute(query)]. *)
Definition cursor_execute (h : handle) (query : string) (params : list pyval)
  : M cursor_result :=
  _ ← emit (EvExecute h query params);
  lift (odbc_execute drv h query params).

(** The rows [fetchmany(size)] takes from the pending ones: at most [size];
    pyodbc reads [-1] as "all rows" and any other negative size as none. *)
Definition take_rows {A : Type} (size : Z) (rows : list A) : list A :=
  if size =? -1 then rows else firstn (Z.to_nat size) rows.

(** [cursor.fetchmany(size)]: needs a result set and an integer size. *)
Definition cursor_fetchmany (h : handle) (size : pyval) (res : cursor_result)
  : M (list (list pyval)) :=
  _ ← emit (EvFetchMany h size);
  match description res with
  | None => raise (OdbcError "No results.  Previous SQL was not a query.")
  | Some _ =>
      match size with
      | PInt n => mret (take_rows n (pending res))
      | PBool b => mret (take_rows (if b then 1 else 0) (pending res))
      | _ => raise (TypeError "an integer is required")
      end
  end.

(** [if params:] on a tuple or [None]. *)
Definition bound_params (params : option (list pyval)) : list pyval :=
  match params with
  | Some (p :: ps) => p :: ps
  | _ => []
  end.

(** [execute_query(self, query, params=None, limit=100)]. *)
Definition execute_query (self : FileMakerConnection) (query : string)
    (params : option (list pyval)) (limit : pyval) : M (list pydict) :=
  match _connection self with
  | None => raise (RuntimeError "Not connected to database")
  | Some h =>
      res ← cursor_execute h query (bound_params params);
      let columns :=
        match description res with
        | Some ds => map desc_name ds
        | None => []
        end in
      rows ← cursor_fetchmany h limit res;
      mret (map (fun row => dict_of_pairs (zip columns row)) rows)
  end.

(** [execute_update(self, query, params=None)]. *)
Definition execute_update (self : FileMakerConnection) (query : string)
    (params : option (list pyval)) : M Z :=
  match _connection self with
  | None => raise (RuntimeError "Not connected to database")
  | Some h =>
      res ← cursor_execute h query (bound_params params);
      _ ← emit (EvCommit h);
      _ ← lift (odbc_commit drv h);
      mret (rowcount res)
  end.

(** [get_tables(self)]: the names of the rows whose type is ["TABLE"]. *)
Definition get_tables (self : FileMakerConnection) : M (list string) :=
  match _connection self with
  | None => raise (RuntimeError "Not connected to database")
  | Some h =>
      _ ← emit (EvTables h);
      rows ← lift (odbc_tables drv h);
      mret (map table_name
              (filter (fun row => table_type row = "TABLE") rows))
  end.

(** [get_columns(self, table_name)]. *)
Definition get_columns (self : FileMakerConnection) (table : string)
  : M (list pydict) :=
  match _connection self with
  | None => raise (RuntimeError "Not connected to database")
  | Some h =>
      _ ← emit (EvColumns h table);
      rows ← lift (odbc_columns drv h table);
      mret (map (fun row =>
                   [("name", PStr (column_name row));
                    ("type", PStr (type_name row));
                    ("size", column_size row);
                    ("nullable", PBool (nullable row =? 1))]) rows)
  end.

End Connection.

(** ** The server built by [create_server] *)

(** [FILEMAKER_DATABASES]. *)
Definition FILEMAKER_DATABASES : list string :=
  ["Appointments"; "CLOrders"; "Dispenses"; "Email"; "Lookups"; "Open";
   "OpenAdmin"; "OpenMngr"; "Patients"; "ProdPrices"; "Timecards";
   "Transactions"].

(** The tools announced by [list_tools], each with the [required] list of its
    [inputSchema]. *)
Definition tool_schemas : list (string * list string) :=
  [("query", ["database"; "sql"]);
   ("list_tables", ["database"]);
   ("describe_table", ["database"; "table"]);
   ("insert_record", ["database"; "table"; "data"]);
   ("update_record", ["database"; "table"; "data"; "where"]);
   ("list_all_databases", []);
   ("search_patients", ["search_term"]);
   ("get_appointments", ["date"]);
   ("get_transactions", [])].

Definition tool_names : list string := map fst tool_schemas.

Definition required_arguments (name : string) : list string :=
  default [] (dict_get name tool_schemas).

(** [CallToolResult]: [content] holds one text item, whose text is
    [json.dumps(document)]; the document itself is kept.  [isError] is
    [False] unless given. *)
Record CallToolResult : Type := { content : pyval; isError : bool }.

(** [ReadResourceResult], likewise. *)
Record ReadResourceResult : Type := { contents : pyval }.

Definition type_name_of (v : pyval) : string :=
  match v with
  | PNone => "NoneType"
  | PBool _ => "bool"
  | PInt _ => "int"
  | PStr _ => "str"
  | PList _ => "list"
  | PDict _ => "dict"
  end.

Section Server.

Variable drv : Driver.
Variable fm_config : FileMakerConfig.

(** [repr] of a list or a dict, which an f-string prints for such a value;
    Python's own, not defined here. *)
Variable container_repr : pyval -> string.

(** The text an f-string puts for [{v}]. *)
Definition py_format (v : pyval) : string :=
  match v with
  | PNone => "None"
  | PBool true => "True"
  | PBool false => "False"
  | PInt n => pretty n
  | PStr s => s
  | PList _ | PDict _ => container_repr v
  end.

(** [get_connection(database)]. *)
Definition get_connection (name : string) : M FileMakerConnection :=
  conns ← get_connections;
  _ ← match conns !! name with
      | Some _ => mret tt
      | None =>
          conn ← new_FileMakerConnection fm_config;
          '(conn, _) ← connect drv conn (Some name);
          set_connection name conn
      end;
  conns ← get_connections;
  match conns !! name with
  | Some conn => mret conn
  | None => raise (KeyError name)
  end.

(** *** Arguments

    [arguments] is the JSON object of the request.  [inputSchema] gives
    each argument a JSON type, and the functions that receive the values
    are annotated accordingly ([database: str], [query: str],
    [table_name: str]).  Where a value is passed on as such a string,
    [as_str] rejects a value of another type at that point. *)

Definition arg_item (k : string) (arguments : pydict) : M pyval :=
  match dict_get k arguments with
  | Some v => mret v
  | None => raise (KeyError k)
  end.

Definition arg_get (k : string) (arguments : pydict) (dflt : pyval) : pyval :=
  default dflt (dict_get k arguments).

Definition as_str (v : pyval) : M string :=
  match v with
  | PStr s => mret s
  | _ => raise (TypeError ("expected str, got " +:+ type_name_of v))
  end.

(** [data.keys()] and [data.values()] need a dict. *)
Definition as_dict (v : pyval) : M pydict :=
  match v with
  | PDict d => mret d
  | _ => raise (AttributeError
                  ("'" +:+ type_name_of v +:+ "' object has no attribute 'keys'"))
  end.

Definition ok_result (doc : pydict) : CallToolResult :=
  {| content := PDict doc; isError := false |}.

(** The envelope of a read: [success], [row_count], [data]. *)
Definition rows_result (results : list pydict) : CallToolResult :=
  ok_result [("success", PBool true);
             ("row_count", PInt (Z.of_nat (length results)));
             ("data", PList (map PDict results))].

(** The result of the [except Exception] handler of [call_tool]. *)
Definition failure_result (e : exn) : CallToolResult :=
  {| content := PDict [("success", PBool false); ("error", PStr (str_exn e))];
     isError := true |}.

(** The result of the final [else] branch of [call_tool]. *)
Definition unknown_tool_result (name : string) : CallToolResult :=
  {| content := PDict [("error", PStr ("Unknown tool: " +:+ name))];
     isError := true |}.

(** *** Resources *)

(** The loop of [read_resource] over the tables. *)
Fixpoint schema_tables (conn : FileMakerConnection) (tables : list string)
  : M (list pyval) :=
  match tables with
  | [] => mret []
  | table :: rest =>
      columns ← get_columns drv conn table;
      more ← schema_tables conn rest;
      mret (PDict [("name", PStr table); ("columns", PList (map PDict columns))]
              :: more)
  end.

(** The [try] body of [read_resource]. *)
Definition read_schema (name : string) : M ReadResourceResult :=
  conn ← get_connection name;
  tables ← get_tables drv conn;
  entries ← schema_tables conn tables;
  mret {| contents :=
            PDict [("database", PStr name); ("tables", PList entries)] |}.

(** The document of the [except] branch of [read_resource]. *)
Definition error_document (e : exn) : ReadResourceResult :=
  {| contents := PDict [("error", PStr (str_exn e))] |}.

(** [read_resource(uri)]. *)
Definition read_resource (uri : string) : M ReadResourceResult :=
  if negb (startswith "filemaker://" uri)
  then raise (ValueError ("Invalid URI scheme: " +:+ uri))
  else
    let name := remove_all "filemaker://" uri in
    try_except (read_schema name) (fun e => mret (error_document e)).

(** *** Tools *)

Definition quoted (s : string) : string := dq +:+ s +:+ dq.

Definition tool_query (arguments : pydict) : M CallToolResult :=
  database ← arg_item "database" arguments;
  sql ← arg_item "sql" arguments;
  let limit := arg_get "limit" arguments (PInt 100) in
  name ← as_str database;
  conn ← get_connection name;
  sql ← as_str sql;
  results ← execute_query drv conn sql None limit;
  mret (rows_result results).

Definition tool_list_tables (arguments : pydict) : M CallToolResult :=
  database ← arg_item "database" arguments;
  name ← as_str database;
  conn ← get_connection name;
  tables ← get_tables drv conn;
  mret (ok_result [("success", PBool true);
                   ("database", database);
                   ("tables", PList (map PStr tables))]).

Definition tool_describe_table (arguments : pydict) : M CallToolResult :=
  database ← arg_item "database" arguments;
  table ← arg_item "table" arguments;
  name ← as_str database;
  conn ← get_connection name;
  table_name ← as_str table;
  columns ← get_columns drv conn table_name;
  mret (ok_result [("success", PBool true);
                   ("database", database);
                   ("table", table);
                   ("columns", PList (map PDict columns))]).

Definition tool_insert_record (arguments : pydict) : M CallToolResult :=
  database ← arg_item "database" arguments;
  table ← arg_item "table" arguments;
  data ← arg_item "data" arguments;
  data ← as_dict data;
  let columns := join ", " (dict_keys data) in
  let placeholders := join ", " (map (fun _ => "?") data) in
  let values := dict_values data in
  let sql := "INSERT INTO " +:+ py_format table +:+ " (" +:+ columns
             +:+ ") VALUES (" +:+ placeholders +:+ ")" in
  name ← as_str database;
  conn ← get_connection name;
  affected ← execute_update drv conn sql (Some values);
  mret (ok_result [("success", PBool true);
                   ("message",
                    PStr ("Inserted " +:+ pretty affected +:+ " record(s)"))]).

Definition tool_update_record (arguments : pydict) : M CallToolResult :=
  database ← arg_item "database" arguments;
  table ← arg_item "table" arguments;
  data ← arg_item "data" arguments;
  where_ ← arg_item "where" arguments;
  data ← as_dict data;
  let set_clause := join ", " (map (fun k => k +:+ " = ?") (dict_keys data)) in
  let values := dict_values data in
  let sql := "UPDATE " +:+ py_format table +:+ " SET " +:+ set_clause
             +:+ " WHERE " +:+ py_format where_ in
  name ← as_str database;
  conn ← get_connection name;
  affected ← execute_update drv conn sql (Some values);
  mret (ok_result [("success", PBool true);
                   ("message",
                    PStr ("Updated " +:+ pretty affected +:+ " record(s)"))]).

(** The body of the loop of [list_all_databases] inside its [try]. *)
Definition database_entry (db : string) : M pyval :=
  conn ← get_connection db;
  tables ← get_tables drv conn;
  mret (PDict [("tables", PList (map PStr tables));
               ("count", PInt (Z.of_nat (length tables)))]).

Fixpoint list_all_loop (dbs : list string) (all_db_info : pydict) : M pydict :=
  match dbs with
  | [] => mret all_db_info
  | db :: rest =>
      entry ← try_except (database_entry db)
                (fun e => mret (PDict [("error", PStr (str_exn e))]));
      list_all_loop rest (dict_set db entry all_db_info)
  end.

Definition tool_list_all_databases (arguments : pydict) : M CallToolResult :=
  all_db_info ← list_all_loop FILEMAKER_DATABASES [];
  mret (ok_result [("success", PBool true);
                   ("databases", PDict all_db_info)]).

Definition indent : string := "                         ".

(** The statement of [search_patients] for a given field text. *)
Definition search_patients_sql (field : string) : string :=
  "SELECT " +:+ quoted "Last Name" +:+ ", " +:+ quoted "First Name" +:+ ", "
  +:+ quoted "Middle Initial" +:+ "," +:+ nl
  +:+ indent +:+ quoted "Street Address" +:+ ", " +:+ quoted "City" +:+ ", "
  +:+ quoted "State" +:+ ", " +:+ quoted "Zip" +:+ "," +:+ nl
  +:+ indent +:+ quoted "Home Phone" +:+ ", " +:+ quoted "Work Phone" +:+ ", "
  +:+ quoted "birth date" +:+ nl
  +:+ indent +:+ "FROM Patients WHERE " +:+ field +:+ " LIKE ?".

Definition tool_search_patients (arguments : pydict) : M CallToolResult :=
  search_term ← arg_item "search_term" arguments;
  let field := arg_get "field" arguments (PStr (quoted "Last Name")) in
  let limit := arg_get "limit" arguments (PInt 50) in
  let sql := search_patients_sql (py_format field) in
  conn ← get_connection "Patients";
  results ← execute_query drv conn sql
              (Some [PStr ("%" +:+ py_format search_term +:+ "%")]) limit;
  mret (rows_result results).

Definition tool_get_appointments (arguments : pydict) : M CallToolResult :=
  date ← arg_item "date" arguments;
  let end_date := arg_get "end_date" arguments PNone in
  let patient_id := arg_get "patient_id" arguments PNone in
  let limit := arg_get "limit" arguments (PInt 100) in
  let '(sql, params) :=
    if truthy end_date
    then ("SELECT * FROM Appointments WHERE dateappt BETWEEN ? AND ?",
          [date; end_date])
    else ("SELECT * FROM Appointments WHERE dateappt = ?", [date]) in
  let '(sql, params) :=
    if truthy patient_id
    then (sql +:+ " AND " +:+ quoted "patient id#" +:+ " = ?",
          params ++ [patient_id])
    else (sql, params) in
  let sql := sql +:+ " ORDER BY timeappt" in
  conn ← get_connection "Appointments";
  results ← execute_query drv conn sql (Some params) limit;
  mret (rows_result results).

(** The [conditions] and [params] lists of [get_transactions]. *)
Definition transactions_filters (patient_id start_date end_date : pyval)
  : list string * list pyval :=
  let conditions := [] in
  let params := [] in
  let '(conditions, params) :=
    if truthy patient_id
    then (conditions ++ [quoted "patient id#" +:+ " = ?"], params ++ [patient_id])
    else (conditions, params) in
  let '(conditions, params) :=
    if truthy start_date
    then (conditions ++ [quoted "trans date" +:+ " >= ?"], params ++ [start_date])
    else (conditions, params) in
  let '(conditions, params) :=
    if truthy end_date
    then (conditions ++ [quoted "trans date" +:+ " <= ?"], params ++ [end_date])
    else (conditions, params) in
  (conditions, params).

Definition transactions_sql (conditions : list string) : string :=
  let sql := "SELECT * FROM Transactions" in
  match conditions with
  | [] => sql
  | _ => sql +:+ " WHERE " +:+ join " AND " conditions
  end.

Definition tool_get_transactions (arguments : pydict) : M CallToolResult :=
  let patient_id := arg_get "patient_id" arguments PNone in
  let start_date := arg_get "start_date" arguments PNone in
  let end_date := arg_get "end_date" arguments PNone in
  let limit := arg_get "limit" arguments (PInt 100) in
  let '(conditions, params) :=
    transactions_filters patient_id start_date end_date in
  let sql := transactions_sql conditions in
  conn ← get_connection "Transactions";
  results ← execute_query drv conn sql
              (match params with [] => None | _ => Some params end) limit;
  mret (rows_result results).

(** The [if]/[elif] chain inside the [try] of [call_tool]. *)
Definition dispatch (name : string) (arguments : pydict) : M CallToolResult :=
  if String.eqb name "query" then tool_query arguments
  else if String.eqb name "list_tables" then tool_list_tables arguments
  else if String.eqb name "describe_table" then tool_describe_table arguments
  else if String.eqb name "insert_record" then tool_insert_record arguments
  else if String.eqb name "update_record" then tool_update_record arguments
  else if String.eqb name "list_all_databases"
       then tool_list_all_databases arguments
  else if String.eqb name "search_patients" then tool_search_patients arguments
  else if String.eqb name "get_appointments"
       then tool_get_appointments arguments
  else if String.eqb name "get_transactions"
       then tool_get_transactions arguments
  else mret (unknown_tool_result name).

(** [call_tool(name, arguments)]: whatever the chain raises becomes the
    failure envelope. *)
Definition call_tool (name : string) (arguments : pydict) : M CallToolResult :=
  try_except (dispatch name arguments) (fun e => mret (failure_result e)).

End Server.

(** ** What the engine does with a LIKE pattern *)

Definition percent : Ascii.ascii := Ascii.ascii_of_nat 37.
Definition underscore : Ascii.ascii := Ascii.ascii_of_nat 95.

(** The gateway only binds the pattern; the engine evaluates [field LIKE ?].
    [like_match] is the SQL predicate: [%] stands for any run of characters,
    [_] for any one character, every other character for itself. *)
Fixpoint like_match (pattern text : string) : bool :=
  match pattern with
  | EmptyString =>
      match text with EmptyString => true | _ => false end
  | String c pattern' =>
      if Ascii.eqb c percent then
        (fix from (t : string) : bool :=
           like_match pattern' t
           || match t with
              | EmptyString => false
              | String _ t' => from t'
              end) text
      else
        match text with
        | EmptyString => false
        | String d text' =>
            (Ascii.eqb c underscore || Ascii.eqb c d) && like_match pattern' text'
        end
  end.


(** ** A sample installation *)

(** A driver that reaches every database but [Email], answers every
    statement with the same three rows under the columns [id], [name], [id],
    and lists two tables and a view. *)
Module Demo.

Definition cfg : FileMakerConfig :=
  {| dsn := "FileMaker"; username := ""; password := ""; database := "" |}.

Definition unreachable : exn :=
  OdbcError "[08001] Unable to connect to data source".

Definition connect (cs : string) : exn + handle :=
  if String.eqb cs "DSN=FileMaker;ServerDataSource=Email"
  then inl unreachable
  else inr (String.length cs).

Definition rows : list (list pyval) :=
  [[PInt 1; PStr "Smith"; PInt 10];
   [PInt 2; PStr "Smith-Jones"; PInt 20];
   [PInt 3; PStr "Smythe"; PInt 30]].

Definition execute (h : handle) (sql : string) (params : list pyval)
  : exn + cursor_result :=
  inr {| description :=
           Some [{| desc_name := "id"; desc_type_code := "int" |};
                 {| desc_name := "name"; desc_type_code := "str" |};
                 {| desc_name := "id"; desc_type_code := "int" |}];
         pending := rows;
         rowcount := -1 |}.

Definition tables (h : handle) : exn + list table_row :=
  inr [{| table_name := "Main"; table_type := "TABLE" |};
       {| table_name := "Summary"; table_type := "VIEW" |};
       {| table_name := "Notes"; table_type := "TABLE" |}].

Definition columns (h : handle) (table : string) : exn + list column_row :=
  inr [{| column_name := "id"; type_name := "DECIMAL";
          column_size := PInt 15; nullable := 0 |};
       {| column_name := "name"; type_name := "VARCHAR";
          column_size := PInt 255; nullable := 1 |}].

Definition driver : Driver :=
  {| odbc_connect := connect;
     odbc_execute := execute;
     odbc_commit := fun _ => inr tt;
     odbc_tables := tables;
     odbc_columns := columns |}.

(** A driver that reaches nothing. *)
Definition offline : Driver :=
  {| odbc_connect := fun _ => inl unreachable;
     odbc_execute := execute;
     odbc_commit := fun _ => inr tt;
     odbc_tables := tables;
     odbc_columns := columns |}.

Definition repr (v : pyval) : string := "<container>".

(** A connection object that holds a handle. *)
Definition conn : FileMakerConnection :=
  {| oid := O; config := cfg; _connection := Some 7%nat |}.

End Demo.

(** ** Vocabulary of the statements *)

(** The connection string [connect] builds for a registry name. *)
Definition target_string (cfg : FileMakerConfig) (name : string) : string :=
  connection_string cfg
    (if negb (String.eqb name "") then name else database cfg).

(** The statement texts handed to [cursor.execute], in order. *)
Fixpoint statements (tr : list event) : list string :=
  match tr with
  | [] => []
  | EvExecute _ sql _ :: tr' => sql :: statements tr'
  | _ :: tr' => statements tr'
  end.

(** The connection strings handed to [pyodbc.connect], in order. *)
Fixpoint connects (tr : list event) : list string :=
  match tr with
  | [] => []
  | EvConnect cs :: tr' => cs :: connects tr'
  | _ :: tr' => connects tr'
  end.





(** The first of the given argument names that the bundle lacks. *)
Fixpoint first_missing (keys : list string) (arguments : pydict) : option string :=
  match keys with
  | [] => None
  | k :: keys' =>
      match dict_get k arguments with
      | None => Some k
      | Some _ => first_missing keys' arguments
      end
  end.

(** A field of a JSON document. *)
Definition field (k : string) (doc : pyval) : option pyval :=
  match doc with
  | PDict d => dict_get k d
  | _ => None
  end.

(** The reading of "flagged distinct" by the error flag: the flag of the
    answer to an unknown name differs from the flag of a failed operation. *)
Definition flag_tells_apart (unknown failed : CallToolResult) : Prop :=
  isError unknown <> isError failed.


(** ** Resources and schemas *)

(** [Resource], as [list_resources] fills it, and [list_resources()]: one
    resource per database of the catalogue. *)
Module Res.



End Res.




(** The tools that change data. *)
Definition write_tools : list string := ["insert_record"; "update_record"].

(** ** More vocabulary *)

(** The handles on which [commit] was called, in order. *)
Fixpoint commits (tr : list event) : list handle :=
  match tr with
  | [] => []
  | EvCommit h :: tr' => h :: commits tr'
  | _ :: tr' => commits tr'
  end.



(** Every run of a computation relates the state it starts from to the state
    it leaves. *)
Definition mstep {A : Type} (R : state -> state -> Prop) (m : M A) : Prop :=
  forall st r st', m st = (r, st') -> R st st'.


(** The statement of [get_appointments]: a range or an equality on the
    date, then the patient predicate when a patient is given, then the
    ordering. *)
Definition appointments_statement (ranged patient : bool) : string :=
  match ranged, patient with
  | false, false =>
      "SELECT * FROM Appointments WHERE dateappt = ? ORDER BY timeappt"
  | true, false =>
      "SELECT * FROM Appointments WHERE dateappt BETWEEN ? AND ? ORDER BY timeappt"
  | false, true =>
      "SELECT * FROM Appointments WHERE dateappt = ? AND "
      +:+ quoted "patient id#" +:+ " = ? ORDER BY timeappt"
  | true, true =>
      "SELECT * FROM Appointments WHERE dateappt BETWEEN ? AND ? AND "
      +:+ quoted "patient id#" +:+ " = ? ORDER BY timeappt"
  end.

(** The values bound to it, in order. *)
Definition appointments_parameters (date end_date patient_id : pyval)
  : list pyval :=
  [date] ++ (if truthy end_date then [end_date] else [])
  ++ (if truthy patient_id then [patient_id] else []).

(** The number of [?] placeholders of a statement. *)
Fixpoint placeholders (sql : string) : nat :=
  match sql with
  | EmptyString => O
  | String c sql' =>
      (if Ascii.eqb c (Ascii.ascii_of_nat 63) then 1 else 0) + placeholders sql'
  end%nat.

(** The statements of [insert_record] and [update_record]. *)
Definition insert_statement (table : string) (data : pydict) : string :=
  "INSERT INTO " +:+ table +:+ " (" +:+ join ", " (dict_keys data)
  +:+ ") VALUES (" +:+ join ", " (map (fun _ => "?") data) +:+ ")".

Definition update_statement (table : string) (data : pydict) (where_ : string)
  : string :=
  "UPDATE " +:+ table +:+ " SET "
  +:+ join ", " (map (fun k => k +:+ " = ?") (dict_keys data))
  +:+ " WHERE " +:+ where_.


(** The answer of a write tool for the outcome of the driver. *)
Definition write_answer (verb : string) (executed : exn + cursor_result)
    (committed : exn + unit) : CallToolResult :=
  match executed with
  | inl e => failure_result e
  | inr res =>
      match committed with
      | inl e => failure_result e
      | inr _ =>
          ok_result
            [("success", PBool true);
             ("message", PStr (verb +:+ pretty (rowcount res) +:+ " record(s)"))]
      end
  end.

(** A call of [cursor.execute] is balanced when the statement has as many
    placeholders as values are bound to it. *)
Definition balanced (ev : event) : Prop :=
  match ev with
  | EvExecute _ sql params => placeholders sql = length params
  | _ => True
  end.

(** The trace has grown by balanced calls only. *)
Definition adds_balanced (st st' : state) : Prop :=
  exists evs, trace st' = trace st ++ evs /\ Forall balanced evs.

(** Whether a database has no connection in the registry. *)
Definition unregistered (st : state) (db : string) : bool :=
  match connections st !! db with
  | None => true
  | Some _ => false
  end.

(** The dictionary [get_columns] makes of a column row. *)
Definition column_document (row : column_row) : pydict :=
  [("name", PStr (column_name row));
   ("type", PStr (type_name row));
   ("size", column_size row);
   ("nullable", PBool (nullable row =? 1))].



(** The names of the base tables among the rows of [cursor.tables()]. *)
Definition base_tables (rows : list table_row) : list string :=
  map table_name (filter (fun row => table_type row = "TABLE") rows).

(** * The report generator of [filemaker_reports.py] *)

(** [counts[k] = counts.get(k, 0) + 1] on a dictionary of counts, for keys
    compared by [eqb]: a key that is there keeps its place and counts one
    more, a new key goes to the end with the count 1. *)
Fixpoint bump {K : Type} (eqb : K -> K -> bool) (k : K) (counts : list (K * Z))
  : list (K * Z) :=
  match counts with
  | [] => [(k, 0 + 1)]
  | (k', c) :: rest =>
      if eqb k k' then (k', c + 1) :: rest else (k', c) :: bump eqb k rest
  end.

(** The sum of the counts of such a dictionary. *)
Definition total_count {K : Type} (counts : list (K * Z)) : Z :=
  fold_right (fun kc acc => snd kc + acc) 0 counts.

(** The order of [sorted] on the items of a dictionary with text keys:
    tuples compare by the key, then by the count. *)
Definition item_le (a b : string * Z) : Prop :=
  String.le (fst a) (fst b) /\ (fst a = fst b -> snd a <= snd b).

#[global] Instance item_le_dec : RelDecision item_le.
Proof. intros a b. unfold item_le. apply _. Defined.

(** One text strictly before another. *)
Definition text_lt (a b : string) : Prop := String.le a b /\ a <> b.

(** [==] between two values that can be keys of a dictionary. *)
Definition key_eqb (a b : pyval) : bool :=
  let number v :=
    match v with
    | PBool true => Some 1
    | PBool false => Some 0
    | PInt n => Some n
    | _ => None
    end in
  match a, b with
  | PNone, PNone => true
  | PStr s, PStr t => String.eqb s t
  | _, _ =>
      match number a, number b with
      | Some m, Some n => m =? n
      | _, _ => false
      end
  end.

Module Reports.

(** [FM_DSN], [FM_USER], [FM_PASS], read from the environment. *)
Record settings : Type := { FM_DSN : string; FM_USER : string; FM_PASS : string }.

(** The calls made to the driver. *)
Inductive event : Type :=
  | Connect (connection_string : string)
  | Execute (h : handle) (sql : string) (params : list pyval)
  | FetchAll (h : handle)
  | FetchOne (h : handle)
  | Close (h : handle).

(** A [FileMakerReports] object: its [connections] dictionary, in the order
    of insertion, and the trace of driver calls. *)
Record state : Type := {
  connections : list (string * handle);
  trace : list event
}.

(** [FileMakerReports()]. *)
Definition initial : state := {| connections := []; trace := [] |}.

(** The exceptions of this module: those of the driver, and those that
    indexing a row and using a value as a key can raise. *)
Inductive error : Type :=
  | DriverError (e : exn)
  | IndexError (msg : string)
  | TypeError (msg : string)
  | KeyError (key : string).


Definition M (A : Type) : Type := state -> (error + A) * state.

#[global] Instance M_ret : MRet M := fun A (a : A) st => (inr a, st).

#[global] Instance M_bind : MBind M := fun A B (f : A -> M B) (m : M A) st =>
  match m st with
  | (inl e, st') => (inl e, st')
  | (inr a, st') => f a st'
  end.

Definition raise {A : Type} (e : error) : M A := fun st => (inl e, st).

(** [try: body  except: handler(e)]. *)
Definition try_except {A : Type} (body : M A) (handler : error -> M A) : M A :=
  fun st =>
    match body st with
    | (inl e, st') => handler e st'
    | (inr a, st') => (inr a, st')
    end.

(** The answer of the driver to a call. *)
Definition lift {A : Type} (r : exn + A) : M A := fun st =>
  (match r with
   | inl e => inl (DriverError e)
   | inr a => inr a
   end, st).

Definition emit (ev : event) : M unit := fun st =>
  (inr tt, {| connections := connections st; trace := trace st ++ [ev] |}).

Definition get_connections : M (list (string * handle)) :=
  fun st => (inr (connections st), st).

Definition set_connections (conns : list (string * handle)) : M unit :=
  fun st => (inr tt, {| connections := conns; trace := trace st |}).

(** The daily figures that [get_daily_appointments] returns. *)
Record daily : Type := {
  date : pyval;
  total_appointments : Z;
  by_doctor : list (pyval * Z);
  by_exam_type : list (pyval * Z)
}.

(** The statements of the reports. *)
Definition daily_sql : string :=
  "SELECT doctor, examtype FROM Appointments WHERE dateappt = ?".

Definition range_sql : string :=
  "SELECT dateappt FROM Appointments WHERE dateappt BETWEEN ? AND ?".






Section Generator.

Variable drv : Driver.

(** [conn.close()] of the driver. *)
Variable odbc_close : handle -> exn + unit.

Variable env : settings.

(** [str(v)]; for a list or a dict it is Python's [repr], left open as in
    [py_format]. *)
Variable container_repr : pyval -> string.

Definition str (v : pyval) : string := py_format container_repr v.

(** [get_connection(self, database)]. *)
Definition get_connection (database : string) : M handle :=
  conns ← get_connections;
  _ ← match dict_get database conns with
      | Some _ => mret tt
      | None =>
          let conn_str :=
            "DSN=" +:+ FM_DSN env +:+ ";UID=" +:+ FM_USER env
            +:+ ";PWD=" +:+ FM_PASS env +:+ ";ServerDataSource=" +:+ database in
          _ ← emit (Connect conn_str);
          h ← lift (odbc_connect drv conn_str);
          set_connections (dict_set database h conns)
      end;
  conns ← get_connections;
  match dict_get database conns with
  | Some h => mret h
  | None => raise (KeyError database)
  end.

(** The loop of [close_all]. *)
Fixpoint close_each (handles : list handle) : M unit :=
  match handles with
  | [] => mret tt
  | h :: rest =>
      _ ← emit (Close h);
      _ ← lift (odbc_close h);
      close_each rest
  end.

(** [close_all(self)]. *)
Definition close_all : M unit :=
  conns ← get_connections;
  _ ← close_each (dict_values conns);
  set_connections [].

(** [cursor.execute(sql, params)]. *)
Definition execute (h : handle) (sql : string) (params : list pyval)
  : M cursor_result :=
  _ ← emit (Execute h sql params);
  lift (odbc_execute drv h sql params).

(** [cursor.fetchall()]: needs a result set. *)
Definition fetchall (h : handle) (res : cursor_result) : M (list (list pyval)) :=
  _ ← emit (FetchAll h);
  match description res with
  | None =>
      raise (DriverError (OdbcError "No results.  Previous SQL was not a query."))
  | Some _ => mret (pending res)
  end.


(** [row[i]]. *)
Definition item (row : list pyval) (i : nat) : M pyval :=
  match row !! i with
  | Some v => mret v
  | None => raise (IndexError "tuple index out of range")
  end.


(** A value used as a key must be hashable. *)
Definition as_key (v : pyval) : M pyval :=
  match v with
  | PList _ | PDict _ =>
      raise (TypeError ("unhashable type: '" +:+ type_name_of v +:+ "'"))
  | _ => mret v
  end.

(** The counting loops of [get_daily_appointments]: the value of column [i],
    or [fallback] when it is empty, counted. *)
Fixpoint count_column (i : nat) (fallback : string) (rows : list (list pyval))
    (counts : list (pyval * Z)) : M (list (pyval * Z)) :=
  match rows with
  | [] => mret counts
  | row :: rest =>
      v ← item row i;
      k ← as_key (if truthy v then v else PStr fallback);
      count_column i fallback rest (bump key_eqb k counts)
  end.

(** [get_daily_appointments(self, date)]; [today] is the text of the day the
    clock gives, used when no date is passed. *)
Definition get_daily_appointments (today : string) (date_arg : option pyval)
  : M daily :=
  let date := match date_arg with
              | Some d => d
              | None => PStr today
              end in
  conn ← get_connection "Appointments";
  res ← execute conn daily_sql [date];
  rows ← fetchall conn res;
  let total := Z.of_nat (length rows) in
  by_doctor ← count_column 0 "Unassigned" rows [];
  by_type ← count_column 1 "Unspecified" rows [];
  mret {| date := date; total_appointments := total;
          by_doctor := by_doctor; by_exam_type := by_type |}.

(** The counting loop of [get_appointment_range]. *)
Fixpoint count_dates (rows : list (list pyval)) (counts : list (string * Z))
  : M (list (string * Z)) :=
  match rows with
  | [] => mret counts
  | row :: rest =>
      v ← item row 0;
      count_dates rest (bump String.eqb (str v) counts)
  end.

(** [sorted(counts.items())].  The keys of a dictionary differ from each
    other, so the order on the items fixes the result. *)
Definition sorted_items (counts : list (string * Z)) : list (string * Z) :=
  merge_sort item_le counts.

(** [get_appointment_range(self, start_date, end_date)]. *)
Definition get_appointment_range (start_date end_date : pyval)
  : M (list pydict) :=
  conn ← get_connection "Appointments";
  res ← execute conn range_sql [start_date; end_date];
  rows ← fetchall conn res;
  counts ← count_dates rows [];
  mret (map (fun dc => [("date", PStr (fst dc)); ("count", PInt (snd dc))])
          (sorted_items counts)).




End Generator.

End Reports.

(** ** Vocabulary of the reports *)

(** How often a text occurs in a list. *)
Definition occurrences (d : string) (l : list string) : Z :=
  Z.of_nat (length (filter (fun x => x = d) l)).

(** The count a dictionary of counts holds for a key, 0 when it has none. *)
Definition count_of (d : string) (counts : list (string * Z)) : Z :=
  default 0 (dict_get d counts).

(** The statements handed to [cursor.execute] by the report generator, with
    their parameters, in order. *)
Definition executed (tr : list Reports.event) : list (string * list pyval) :=
  omap (fun ev => match ev with
                  | Reports.Execute _ sql params => Some (sql, params)
                  | _ => None
                  end) tr.

(** The connection strings handed to [pyodbc.connect]. *)
Definition connected (tr : list Reports.event) : list string :=
  omap (fun ev => match ev with
                  | Reports.Connect cs => Some cs
                  | _ => None
                  end) tr.

(** The connection string of the report generator for a database. *)
Definition report_target (env : Reports.settings) (database : string) : string :=
  "DSN=" +:+ Reports.FM_DSN env +:+ ";UID=" +:+ Reports.FM_USER env
  +:+ ";PWD=" +:+ Reports.FM_PASS env +:+ ";ServerDataSource=" +:+ database.

(** The handles closed, in order. *)
Definition closed (tr : list Reports.event) : list handle :=
  omap (fun ev => match ev with
                  | Reports.Close h => Some h
                  | _ => None
                  end) tr.

(** The text of the first column of each row. *)
Definition date_texts (container_repr : pyval -> string)
    (rows : list (list pyval)) : list string :=
  omap (fun row => Reports.str container_repr <$> row !! 0%nat) rows.


Module ReportsDemo.

Definition env : Reports.settings :=
  {| Reports.FM_DSN := "Filemaker"; Reports.FM_USER := "";
     Reports.FM_PASS := "" |}.

(** The rows of the range report, of the daily report and of a count. *)
Definition dates : list (list pyval) :=
  [[PStr "2024-03-02"]; [PStr "2024-03-01"]; [PStr "2024-03-02"]].

Definition visits : list (list pyval) :=
  [[PStr "Lee"; PStr "Exam"]; [PNone; PStr ""]; [PStr "Lee"; PStr "Recall"]].

Definition execute (h : handle) (sql : string) (params : list pyval)
  : exn + cursor_result :=
  inr {| description := Some [{| desc_name := ""; desc_type_code := "str" |}];
         pending := if String.eqb sql Reports.range_sql then dates
                    else if String.eqb sql Reports.daily_sql then visits
                    else [[PInt 42]];
         rowcount := -1 |}.

Definition driver : Driver :=
  {| odbc_connect := fun cs => inr (String.length cs);
     odbc_execute := execute;
     odbc_commit := fun _ => inr tt;
     odbc_tables := Demo.tables;
     odbc_columns := Demo.columns |}.

(** A driver whose statements all fail. *)
Definition failing : Driver :=
  {| odbc_connect := fun cs => inr (String.length cs);
     odbc_execute := fun _ _ _ => inl (OdbcError "[42000] syntax error");
     odbc_commit := fun _ => inr tt;
     odbc_tables := Demo.tables;
     odbc_columns := Demo.columns |}.

(** Closing the handle 2 fails. *)
Definition close (h : handle) : exn + unit :=
  if Nat.eqb h 2 then inl (OdbcError "[08S01] Communication link failure")
  else inr tt.

Definition open : Reports.state :=
  {| Reports.connections := [("Appointments", 1%nat); ("Patients", 2%nat);
                             ("Transactions", 3%nat)];
     Reports.trace := [] |}.

End ReportsDemo.

(** ** The registry *)

Section Registry.

Variable drv : Driver.
Variable cfg : FileMakerConfig.

Lemma get_connection_cached name st conn :
  connections st !! name = Some conn ->
  get_connection drv cfg name st = (inr conn, st).
Proof.
  intros Hc. unfold get_connection, get_connections, mbind, M_bind, mret, M_ret.
  rewrite Hc. simpl. rewrite Hc. reflexivity.
Qed.

Lemma get_connection_fresh name st h :
  connections st !! name = None ->
  odbc_connect drv (target_string cfg name) = inr h ->
  let conn := {| oid := next_oid st; config := cfg; _connection := Some h |} in
  get_connection drv cfg name st =
    (inr conn,
     {| connections := <[name := conn]> (connections st);
        next_oid := S (next_oid st);
        trace := trace st ++ [EvConnect (target_string cfg name)] |}).
Proof.
  intros Hc Hd. unfold get_connection, get_connections, mbind, M_bind, mret, M_ret.
  rewrite Hc. unfold new_FileMakerConnection, connect, emit, lift, mbind, M_bind,
    mret, M_ret, set_connection. simpl.
  unfold target_string in Hd. rewrite Hd. simpl.
  rewrite lookup_insert_eq. reflexivity.
Qed.

Lemma get_connection_refused name st e :
  connections st !! name = None ->
  odbc_connect drv (target_string cfg name) = inl e ->
  get_connection drv cfg name st =
    (inl e,
     {| connections := connections st;
        next_oid := S (next_oid st);
        trace := trace st ++ [EvConnect (target_string cfg name)] |}).
Proof.
  intros Hc Hd. unfold get_connection, get_connections, mbind, M_bind, mret, M_ret.
  rewrite Hc. unfold new_FileMakerConnection, connect, emit, lift, mbind, M_bind,
    mret, M_ret, set_connection. simpl.
  unfold target_string in Hd. rewrite Hd. reflexivity.
Qed.

(** Whatever happens, [get_connection] touches the registry at its own
    name only, and a returned connection is the one registered. *)
Lemma get_connection_frame name st r st' :
  get_connection drv cfg name st = (r, st') ->
  (forall other, other <> name -> connections st' !! other = connections st !! other)
  /\ (forall conn, r = inr conn -> connections st' !! name = Some conn).
Proof.
  intros Hrun. destruct (connections st !! name) as [c|] eqn:Hc.
  - rewrite (get_connection_cached _ _ _ Hc) in Hrun. inversion Hrun; subst.
    split; [reflexivity | congruence].
  - destruct (odbc_connect drv (target_string cfg name)) as [e|h] eqn:Hd.
    + rewrite (get_connection_refused _ _ _ Hc Hd) in Hrun.
      inversion Hrun; subst. simpl. split; [reflexivity | discriminate].
    + rewrite (get_connection_fresh _ _ _ Hc Hd) in Hrun.
      inversion Hrun; subst. simpl. split.
      * intros other Hne. apply lookup_insert_ne. congruence.
      * intros conn Heq. inversion Heq; subst. apply lookup_insert_eq.
Qed.

End Registry.

(** C3.  Calling [get_connection] twice with the same database name returns
    the same connection object both times (the same [oid], the same handle),
    and the second call asks nothing of the driver: it leaves the whole state,
    trace included, as the first call left it, whatever driver it is given.
    The registry holds that one connection under the name. *)
Theorem get_connection_idempotent (drv drv' : Driver) (cfg : FileMakerConfig)
    (name : string) (st st1 : state) (conn : FileMakerConnection) :
  get_connection drv cfg name st = (inr conn, st1) ->
  get_connection drv' cfg name st1 = (inr conn, st1)
  /\ connections st1 !! name = Some conn.
Proof.
  intros Hfirst.
  destruct (get_connection_frame drv cfg name st _ _ Hfirst) as [_ Hreg].
  specialize (Hreg conn eq_refl).
  split; [apply get_connection_cached; exact Hreg | exact Hreg].
Qed.

Lemma get_connection_idempotent_witness :
  exists conn st1,
    get_connection Demo.driver Demo.cfg "Patients" initial_state = (inr conn, st1)
    /\ get_connection Demo.offline Demo.cfg "Patients" st1 = (inr conn, st1)
    /\ connections st1 !! "Patients" = Some conn.
Proof.
  eexists. eexists. split; [reflexivity |].
  apply (get_connection_idempotent Demo.driver Demo.offline Demo.cfg "Patients"
           initial_state).
  reflexivity.
Defined.

(** C9.  When the driver refuses the connection while [get_connection]
    creates one for a name that is not in the registry, the call raises the
    driver's error and the registry is as before: no entry for the name.  The
    next call for the same name asks the driver again, and what it returns is
    what the driver then answers: the error again, or a new connection that
    is registered. *)
Theorem refused_connection_not_registered (drv drv' : Driver)
    (cfg : FileMakerConfig) (name : string) (st : state) (e : exn) :
  connections st !! name = None ->
  odbc_connect drv (target_string cfg name) = inl e ->
  exists st1,
    get_connection drv cfg name st = (inl e, st1)
    /\ connections st1 = connections st
    /\ connections st1 !! name = None
    /\ exists r st2,
         get_connection drv' cfg name st1 = (r, st2)
         /\ trace st2 = trace st1 ++ [EvConnect (target_string cfg name)]
         /\ match odbc_connect drv' (target_string cfg name) with
            | inl e' => r = inl e' /\ connections st2 !! name = None
            | inr h =>
                exists conn,
                  r = inr conn /\ _connection conn = Some h
                  /\ connections st2 !! name = Some conn
            end.
Proof.
  intros Hc Hd. eexists. split; [apply get_connection_refused; eassumption |].
  simpl. split; [reflexivity |]. split; [exact Hc |].
  destruct (odbc_connect drv' (target_string cfg name)) as [e'|h] eqn:Hd'.
  - eexists. eexists. split.
    + apply get_connection_refused; [exact Hc | exact Hd'].
    + simpl. split; [reflexivity |]. split; [reflexivity | exact Hc].
  - eexists. eexists. split.
    + apply get_connection_fresh; [exact Hc | exact Hd'].
    + simpl. split; [reflexivity |]. eexists. split; [reflexivity |].
      split; [reflexivity | apply lookup_insert_eq].
Qed.

Lemma refused_connection_not_registered_witness :
  connections initial_state !! "Email" = None
  /\ odbc_connect Demo.driver (target_string Demo.cfg "Email") = inl Demo.unreachable
  /\ exists st1,
       get_connection Demo.driver Demo.cfg "Email" initial_state
         = (inl Demo.unreachable, st1)
       /\ connections st1 = connections initial_state
       /\ connections st1 !! "Email" = None
       /\ exists r st2,
            get_connection Demo.driver Demo.cfg "Email" st1 = (r, st2)
            /\ trace st2 = trace st1 ++ [EvConnect (target_string Demo.cfg "Email")]
            /\ match odbc_connect Demo.driver (target_string Demo.cfg "Email") with
               | inl e' => r = inl e' /\ connections st2 !! "Email" = None
               | inr h =>
                   exists conn,
                     r = inr conn /\ _connection conn = Some h
                     /\ connections st2 !! "Email" = Some conn
               end.
Proof.
  split; [reflexivity |]. split; [reflexivity |].
  apply (refused_connection_not_registered Demo.driver Demo.driver Demo.cfg
           "Email" initial_state Demo.unreachable); reflexivity.
Defined.

(** ** Dictionaries *)

Section Dictionaries.

Context {V : Type}.
Implicit Types (d : list (string * V)) (k : string) (v : V).

Lemma dict_get_set_eq k v d : dict_get k (dict_set k v d) = Some v.
Proof.
  induction d as [|[k' v'] d IH]; simpl.
  - rewrite String.eqb_refl. reflexivity.
  - destruct (String.eqb k k') eqn:E; simpl; rewrite E; [reflexivity | exact IH].
Qed.

Lemma dict_get_set_ne k k' v d :
  k <> k' -> dict_get k (dict_set k' v d) = dict_get k d.
Proof.
  intros Hne. apply String.eqb_neq in Hne.
  induction d as [|[k0 v0] d IH]; simpl.
  - rewrite Hne. reflexivity.
  - destruct (String.eqb k' k0) eqn:E; simpl.
    + apply String.eqb_eq in E. subst k0. rewrite Hne. reflexivity.
    + rewrite IH. reflexivity.
Qed.

Lemma dict_get_store_other k (ps : list (string * V)) d :
  k ∉ ps.*1 ->
  dict_get k (fold_left (fun d p => dict_set (fst p) (snd p) d) ps d)
    = dict_get k d.
Proof.
  revert d. induction ps as [|[k' v'] ps IH]; intros d Hk; simpl.
  - reflexivity.
  - rewrite fmap_cons, not_elem_of_cons in Hk. destruct Hk as [Hne Hk].
    rewrite (IH _ Hk). apply dict_get_set_ne. exact Hne.
Qed.

(** In [dict(pairs)], a key holds the value of its last pair. *)
Lemma dict_of_pairs_last k v (before after : list (string * V)) :
  k ∉ after.*1 ->
  dict_get k (dict_of_pairs (before ++ (k, v) :: after)) = Some v.
Proof.
  intros Hk. unfold dict_of_pairs. rewrite fold_left_app. simpl.
  rewrite (dict_get_store_other _ _ _ Hk). apply dict_get_set_eq.
Qed.

(** The same by position, for [dict(zip(columns, row))]. *)
Lemma dict_of_zip_last (columns : list string) (row : list V) (i : nat) k v :
  columns !! i = Some k ->
  row !! i = Some v ->
  (forall j, (i < j)%nat -> (j < length row)%nat -> columns !! j <> Some k) ->
  dict_get k (dict_of_pairs (zip columns row)) = Some v.
Proof.
  intros Hc Hr Hlast.
  assert (Hz : zip columns row !! i = Some (k, v)).
  { rewrite lookup_zip_with, Hc, Hr. reflexivity. }
  rewrite <- (take_drop_middle _ _ _ Hz).
  apply dict_of_pairs_last.
  intros Hin. apply list_elem_of_fmap in Hin as [[k' v'] [Hk Hin]].
  simpl in Hk. subst k'.
  apply list_elem_of_lookup in Hin as [j Hj].
  rewrite lookup_drop in Hj.
  apply lookup_zip_with_Some in Hj as (x & y & Hxy & Hx & Hy).
  inversion Hxy; subst x y.
  apply (Hlast (S i + j)%nat); [lia | | exact Hx].
  apply lookup_lt_is_Some. eauto.
Qed.

End Dictionaries.

(** ** The query executor *)

Section Executor.

Variable drv : Driver.

Lemma length_take_rows {A : Type} (n : Z) (rows : list A) :
  0 <= n -> Z.of_nat (length (take_rows n rows)) <= n.
Proof.
  intros Hn. unfold take_rows.
  destruct (n =? -1) eqn:E; [lia |].
  rewrite length_take. lia.
Qed.

Lemma take_rows_nonneg {A : Type} (n : Z) (rows : list A) :
  0 <= n -> take_rows n rows = take (Z.to_nat n) rows.
Proof.
  intros Hn. unfold take_rows. destruct (n =? -1) eqn:E; [lia | reflexivity].
Qed.

Lemma take_rows_prefix {A : Type} (n : Z) (rows : list A) :
  exists rest, rows = take_rows n rows ++ rest.
Proof.
  unfold take_rows. destruct (n =? -1).
  - exists []. rewrite app_nil_r. reflexivity.
  - exists (drop (Z.to_nat n) rows). rewrite take_drop. reflexivity.
Qed.

(** [execute_query] on a connection without a handle. *)
Lemma execute_query_closed self query params limit st :
  _connection self = None ->
  execute_query drv self query params limit st
    = (inl (RuntimeError "Not connected to database"), st).
Proof. intros H. unfold execute_query. rewrite H. reflexivity. Qed.

(** [execute_query] when the driver rejects the statement. *)
Lemma execute_query_rejected self query params limit st h e :
  _connection self = Some h ->
  odbc_execute drv h query (bound_params params) = inl e ->
  execute_query drv self query params limit st
    = (inl e,
       {| connections := connections st; next_oid := next_oid st;
          trace := trace st ++ [EvExecute h query (bound_params params)] |}).
Proof.
  intros H He. unfold execute_query, cursor_execute, emit, lift, mbind, M_bind.
  rewrite H. simpl. rewrite He. reflexivity.
Qed.

(** [execute_query] when the driver accepts the statement: the rows are
    what [fetchmany(limit)] gives, each zipped with the column names. *)
Lemma execute_query_accepted self query params limit st h res :
  _connection self = Some h ->
  odbc_execute drv h query (bound_params params) = inr res ->
  execute_query drv self query params limit st
    = (let st1 := {| connections := connections st; next_oid := next_oid st;
                     trace := trace st ++ [EvExecute h query (bound_params params)] |} in
       let columns := match description res with
                      | Some ds => map desc_name ds
                      | None => []
                      end in
       match cursor_fetchmany h limit res st1 with
       | (inl e, st2) => (inl e, st2)
       | (inr rows, st2) =>
           (inr (map (fun row => dict_of_pairs (zip columns row)) rows), st2)
       end).
Proof.
  intros H He. unfold execute_query, cursor_execute, emit, lift, mbind, M_bind.
  rewrite H. simpl. rewrite He. simpl.
  destruct (cursor_fetchmany _ _ _ _) as [[e|rows] st2]; reflexivity.
Qed.


End Executor.

(** C1.  For every call of [execute_query] with a limit that is at least 0,
    the rows returned are at most [limit] many, however many rows the
    statement produced.  The driver receives exactly one statement, whose
    text is the text the caller supplied, followed by one [fetchmany(limit)]:
    the bound is applied at the fetch and nowhere else.  When the statement
    yields a result set, the rows returned are its first [limit] rows (all of
    them when there are fewer), each zipped with the column names. *)
Theorem execute_query_fetch_bound (drv : Driver) (self : FileMakerConnection)
    (query : string) (params : option (list pyval)) (limit : Z)
    (st st' : state) (r : exn + list pydict) :
  0 <= limit ->
  execute_query drv self query params (PInt limit) st = (r, st') ->
  (forall rows, r = inr rows -> Z.of_nat (length rows) <= limit)
  /\ trace st' =
       trace st ++
       match _connection self with
       | None => []
       | Some h =>
           EvExecute h query (bound_params params)
           :: match odbc_execute drv h query (bound_params params) with
              | inl _ => []
              | inr _ => [EvFetchMany h (PInt limit)]
              end
       end
  /\ statements (trace st') =
       statements (trace st) ++
       match _connection self with Some _ => [query] | None => [] end
  /\ (forall h res ds,
        _connection self = Some h ->
        odbc_execute drv h query (bound_params params) = inr res ->
        description res = Some ds ->
        r = inr (map (fun row => dict_of_pairs (zip (map desc_name ds) row))
                   (take (Z.to_nat limit) (pending res)))).
Proof.
  intros Hlimit Hrun.
  assert (Hst : forall tr evs, statements (tr ++ evs) = statements tr ++ statements evs).
  { induction tr as [|ev tr IH]; intros evs; simpl; [reflexivity |].
    destruct ev; simpl; rewrite IH; reflexivity. }
  destruct (_connection self) as [h|] eqn:Hconn.
  - destruct (odbc_execute drv h query (bound_params params)) as [e|res] eqn:Hexec.
    + rewrite (execute_query_rejected drv _ _ _ _ _ _ _ Hconn Hexec) in Hrun.
      inversion Hrun; subst; simpl.
      split; [discriminate |]. split; [reflexivity |].
      split; [rewrite Hst; reflexivity |]. intros; congruence.
    + rewrite (execute_query_accepted drv _ _ _ _ _ _ _ Hconn Hexec) in Hrun.
      unfold cursor_fetchmany, emit, raise, mbind, M_bind, mret, M_ret in Hrun.
      simpl in Hrun.
      destruct (description res) as [ds|] eqn:Hdesc; inversion Hrun; subst; simpl.
      * split.
        { intros rows Hrows. inversion Hrows; subst.
          rewrite length_map. apply length_take_rows. exact Hlimit. }
        split; [rewrite <- app_assoc; reflexivity |].
        split; [rewrite <- app_assoc, Hst; reflexivity |].
        intros h' res' ds' Hh Hres Hds.
        inversion Hh; subst h'. rewrite Hexec in Hres.
        inversion Hres; subst res'. rewrite Hdesc in Hds. inversion Hds; subst ds'.
        rewrite take_rows_nonneg by exact Hlimit. reflexivity.
      * split; [discriminate |].
        split; [rewrite <- app_assoc; reflexivity |].
        split; [rewrite <- app_assoc, Hst; reflexivity |].
        intros h' res' ds' Hh Hres Hds.
        inversion Hh; subst h'. rewrite Hexec in Hres.
        inversion Hres; subst res'. congruence.
  - rewrite (execute_query_closed drv _ _ _ _ _ Hconn) in Hrun.
    inversion Hrun; subst. split; [discriminate |].
    split; [rewrite app_nil_r; reflexivity |].
    split; [rewrite app_nil_r; reflexivity |]. intros; congruence.
Qed.


Lemma execute_query_fetch_bound_witness :
  let run := execute_query Demo.driver Demo.conn "SELECT * FROM Patients" None
               (PInt 2) initial_state in
  0 <= 2
  /\ (forall rows, fst run = inr rows -> Z.of_nat (length rows) <= 2)
  /\ statements (trace (snd run)) = ["SELECT * FROM Patients"]
  /\ exists rows, fst run = inr rows /\ length rows = 2%nat.
Proof.
  intros run.
  destruct (execute_query_fetch_bound Demo.driver Demo.conn "SELECT * FROM Patients"
              None 2 initial_state (snd run) (fst run))
    as (Hbound & _ & Hstmts & _).
  - lia.
  - reflexivity.
  - split; [lia |]. split; [exact Hbound |]. split; [exact Hstmts |].
    eexists. split; reflexivity.
Defined.

(** C8.  Every row returned by [execute_query] is the dictionary built from
    the position-wise zip of the column names of the driver's description
    with the values of a fetched row, in order; the returned rows follow the
    fetched rows one for one.  In such a dictionary a column name holds the
    value at the last position where that name occurs: when two descriptors
    share a name, the later value overwrites the earlier one. *)
Theorem execute_query_row_mapping (drv : Driver) (self : FileMakerConnection)
    (query : string) (params : option (list pyval)) (limit : pyval)
    (st st' : state) (rows : list pydict) :
  execute_query drv self query params limit st = (inr rows, st') ->
  exists h res ds fetched rest,
    _connection self = Some h
    /\ odbc_execute drv h query (bound_params params) = inr res
    /\ description res = Some ds
    /\ pending res = fetched ++ rest
    /\ rows = map (fun row => dict_of_pairs (zip (map desc_name ds) row)) fetched
    /\ forall row (i : nat) k v,
         In row fetched ->
         map desc_name ds !! i = Some k ->
         row !! i = Some v ->
         (forall j, (i < j)%nat -> (j < length row)%nat ->
                    map desc_name ds !! j <> Some k) ->
         dict_get k (dict_of_pairs (zip (map desc_name ds) row)) = Some v.
Proof.
  intros Hrun.
  destruct (_connection self) as [h|] eqn:Hconn;
    [| rewrite (execute_query_closed drv _ _ _ _ _ Hconn) in Hrun; discriminate].
  destruct (odbc_execute drv h query (bound_params params)) as [e|res] eqn:Hexec;
    [rewrite (execute_query_rejected drv _ _ _ _ _ _ _ Hconn Hexec) in Hrun;
     discriminate |].
  rewrite (execute_query_accepted drv _ _ _ _ _ _ _ Hconn Hexec) in Hrun.
  unfold cursor_fetchmany, emit, raise, mbind, M_bind, mret, M_ret in Hrun.
  simpl in Hrun.
  destruct (description res) as [ds|] eqn:Hdesc; [| discriminate].
  assert (Hshape : forall n,
             exists fetched rest,
               pending res = fetched ++ rest /\ take_rows n (pending res) = fetched).
  { intros n. destruct (take_rows_prefix n (pending res)) as [rest Hrest].
    exists (take_rows n (pending res)), rest. split; [exact Hrest | reflexivity]. }
  assert (Hlast : forall (fetched : list (list pyval)) (row : list pyval)
                         (i : nat) k v,
             In row fetched ->
             map desc_name ds !! i = Some k ->
             row !! i = Some v ->
             (forall j, (i < j)%nat -> (j < length row)%nat ->
                        map desc_name ds !! j <> Some k) ->
             dict_get k (dict_of_pairs (zip (map desc_name ds) row)) = Some v).
  { intros fetched row i k v _ Hk Hv Hno. eapply dict_of_zip_last; eassumption. }
  destruct limit as [| b | n | s | l | d]; try discriminate.
  - destruct (Hshape (if b then 1 else 0)) as (fetched & rest & Hsplit & Htake).
    rewrite Htake in Hrun. inversion Hrun; subst rows st'.
    exists h, res, ds, fetched, rest. repeat (split; [first [reflexivity | assumption] |]).
    apply Hlast.
  - destruct (Hshape n) as (fetched & rest & Hsplit & Htake).
    rewrite Htake in Hrun. inversion Hrun; subst rows st'.
    exists h, res, ds, fetched, rest. repeat (split; [first [reflexivity | assumption] |]).
    apply Hlast.
Qed.

Lemma execute_query_row_mapping_witness :
  exists rows st',
    execute_query Demo.driver Demo.conn "SELECT id, name, id FROM T" None (PInt 1)
      initial_state = (inr rows, st')
    /\ rows = [[("id", PInt 10); ("name", PStr "Smith")]]
    /\ exists h res ds fetched rest,
         _connection Demo.conn = Some h
         /\ odbc_execute Demo.driver h "SELECT id, name, id FROM T"
              (bound_params None) = inr res
         /\ description res = Some ds
         /\ pending res = fetched ++ rest
         /\ rows = map (fun row => dict_of_pairs (zip (map desc_name ds) row))
                     fetched
         /\ forall row (i : nat) k v,
              In row fetched ->
              map desc_name ds !! i = Some k ->
              row !! i = Some v ->
              (forall j, (i < j)%nat -> (j < length row)%nat ->
                         map desc_name ds !! j <> Some k) ->
              dict_get k (dict_of_pairs (zip (map desc_name ds) row)) = Some v.
Proof.
  eexists. eexists. split; [cbv; reflexivity |]. split; [reflexivity |].
  eapply (execute_query_row_mapping Demo.driver Demo.conn
            "SELECT id, name, id FROM T" None (PInt 1) initial_state).
  cbv; reflexivity.
Defined.

(** ** The router *)

Section Router.

Variable drv : Driver.
Variable cfg : FileMakerConfig.
Variable repr : pyval -> string.

Lemma first_missing_sound keys (arguments : pydict) k :
  first_missing keys arguments = Some k ->
  In k keys /\ dict_get k arguments = None.
Proof.
  induction keys as [|k0 keys IH]; simpl; [discriminate |].
  destruct (dict_get k0 arguments) eqn:E.
  - intros H. destruct (IH H) as [Hin Hnone]. split; [right; exact Hin | exact Hnone].
  - intros H. inversion H; subst. split; [left; reflexivity | exact E].
Qed.

Lemma first_missing_complete keys (arguments : pydict) k :
  In k keys -> dict_get k arguments = None ->
  exists k', first_missing keys arguments = Some k'.
Proof.
  induction keys as [|k0 keys IH]; simpl; [contradiction |].
  intros [-> | Hin] Hnone.
  - rewrite Hnone. eauto.
  - destruct (dict_get k0 arguments); eauto.
Qed.

(** Every handler reads its required arguments first, in the order of its
    schema, and the first one that is missing raises [KeyError] there, with
    the state untouched. *)
Lemma dispatch_missing name (arguments : pydict) st k :
  In name tool_names ->
  first_missing (required_arguments name) arguments = Some k ->
  dispatch drv cfg repr name arguments st = (inl (KeyError k), st).
Proof.
  intros Hin Hfm. simpl in Hin.
  repeat (destruct Hin as [<- | Hin]); try contradiction;
    cbn in Hfm; unfold dispatch; cbn [String.eqb Ascii.eqb Bool.eqb];
    unfold tool_query, tool_list_tables, tool_describe_table,
      tool_insert_record, tool_update_record, tool_search_patients,
      tool_get_appointments, arg_item, mbind, M_bind, raise;
    repeat match type of Hfm with
           | context [dict_get ?key arguments] =>
               destruct (dict_get key arguments) eqn:?; cbn in Hfm
           end;
    try discriminate; inversion Hfm; reflexivity.
Qed.

(** An unknown name falls through every comparison of the router. *)
Lemma dispatch_unknown name (arguments : pydict) st :
  ~ In name tool_names ->
  dispatch drv cfg repr name arguments st = (inr (unknown_tool_result name), st).
Proof.
  intros Hnot. unfold dispatch.
  repeat match goal with
         | |- context [String.eqb name ?lit] =>
             destruct (String.eqb_spec name lit) as [-> | _];
             [exfalso; apply Hnot; simpl; tauto |]
         end.
  reflexivity.
Qed.

End Router.

(** C4.  For every tool of the catalogue and every argument bundle that
    lacks at least one argument its schema requires, [call_tool] answers with
    the failure envelope of a lookup error that names a missing required
    argument, and the state is exactly as before the call: nothing was asked
    of the driver (no connection attempt, no statement) and the registry is
    unchanged. *)
Theorem missing_argument_fails_before_connection (drv : Driver)
    (cfg : FileMakerConfig) (repr : pyval -> string)
    (name : string) (arguments : pydict) (st : state) :
  In name tool_names ->
  (exists k, In k (required_arguments name) /\ dict_get k arguments = None) ->
  exists k,
    In k (required_arguments name)
    /\ dict_get k arguments = None
    /\ call_tool drv cfg repr name arguments st
         = (inr (failure_result (KeyError k)), st).
Proof.
  intros Hname (k & Hk & Hnone).
  destruct (first_missing_complete _ _ _ Hk Hnone) as [k' Hfirst].
  destruct (first_missing_sound _ _ _ Hfirst) as [Hk' Hnone'].
  exists k'. split; [exact Hk' |]. split; [exact Hnone' |].
  unfold call_tool, try_except.
  rewrite (dispatch_missing drv cfg repr _ _ st _ Hname Hfirst). reflexivity.
Qed.

Lemma missing_argument_fails_before_connection_witness :
  exists k,
    In k (required_arguments "update_record")
    /\ dict_get k [("database", PStr "Patients"); ("table", PStr "Patients");
                   ("where", PStr "1 = 1")] = None
    /\ call_tool Demo.driver Demo.cfg Demo.repr "update_record"
         [("database", PStr "Patients"); ("table", PStr "Patients");
          ("where", PStr "1 = 1")] initial_state
       = (inr (failure_result (KeyError k)), initial_state).
Proof.
  apply (missing_argument_fails_before_connection Demo.driver Demo.cfg Demo.repr
           "update_record").
  - simpl. tauto.
  - exists "data". split; [simpl; tauto | reflexivity].
Defined.

(** C5 as stated fails: the error flag does not set the answer to an unknown
    name apart from a failed operation.  A [query] call without arguments
    fails in the ordinary way and carries the same flag as the answer to the
    unknown name [reindex]. *)
Lemma unknown_tool_flag_counterexample :
  exists u f,
    ~ In "reindex" tool_names
    /\ call_tool Demo.driver Demo.cfg Demo.repr "reindex" [] initial_state
       = (inr u, initial_state)
    /\ call_tool Demo.driver Demo.cfg Demo.repr "query" [] initial_state
       = (inr f, initial_state)
    /\ f = failure_result (KeyError "database")
    /\ ~ flag_tells_apart u f.
Proof.
  eexists. eexists.
  split; [simpl; intuition discriminate |].
  split; [reflexivity |]. split; [reflexivity |]. split; [reflexivity |].
  unfold flag_tells_apart. simpl. intros H. apply H. reflexivity.
Qed.

(** C5, amended.  For every name outside the catalogue, [call_tool] returns
    an error-class answer ([isError] set) whose document has the single field
    [error] with the text ["Unknown tool: <name>"], and leaves the state as
    it was: no connection is opened.  A failed operation is error-class too;
    the two answers differ by the document, which has a [success] field
    (false) for a failed operation and none for an unknown name. *)
Theorem unknown_tool_answer (drv : Driver) (cfg : FileMakerConfig)
    (repr : pyval -> string) (name : string) (arguments : pydict) (st : state) :
  ~ In name tool_names ->
  call_tool drv cfg repr name arguments st = (inr (unknown_tool_result name), st)
  /\ isError (unknown_tool_result name) = true
  /\ content (unknown_tool_result name)
       = PDict [("error", PStr ("Unknown tool: " +:+ name))]
  /\ field "success" (content (unknown_tool_result name)) = None
  /\ forall e,
       isError (failure_result e) = true
       /\ field "success" (content (failure_result e)) = Some (PBool false)
       /\ failure_result e <> unknown_tool_result name.
Proof.
  intros Hnot. split.
  - unfold call_tool, try_except. rewrite dispatch_unknown by exact Hnot.
    reflexivity.
  - repeat split; discriminate.
Qed.

Lemma unknown_tool_answer_witness :
  ~ In "reindex" tool_names
  /\ call_tool Demo.driver Demo.cfg Demo.repr "reindex"
       [("database", PStr "Patients")] initial_state
     = (inr (unknown_tool_result "reindex"), initial_state).
Proof.
  assert (H : ~ In "reindex" tool_names) by (simpl; intuition discriminate).
  split; [exact H |].
  apply (unknown_tool_answer Demo.driver Demo.cfg Demo.repr "reindex"
           [("database", PStr "Patients")] initial_state H).
Defined.

(** ** Listing all databases *)

Section Fanout.

Variable drv : Driver.
Variable cfg : FileMakerConfig.





End Fanout.




(** ** The domain queries *)

Section Queries.

Variable drv : Driver.
Variable cfg : FileMakerConfig.
Variable repr : pyval -> string.

Lemma statements_app tr evs :
  statements (tr ++ evs) = statements tr ++ statements evs.
Proof.
  induction tr as [|ev tr IH]; simpl; [reflexivity |].
  destruct ev; simpl; rewrite IH; reflexivity.
Qed.


(** A read handler once its connection is there: the rows of
    [execute_query] in the read envelope, or its exception. *)
Lemma read_handler_run name sql params limit st conn st1 :
  get_connection drv cfg name st = (inr conn, st1) ->
  (conn ← get_connection drv cfg name;
   results ← execute_query drv conn sql params limit;
   mret (rows_result results)) st
  = match execute_query drv conn sql params limit st1 with
    | (inl e, st2) => (inl e, st2)
    | (inr rows, st2) => (inr (rows_result rows), st2)
    end.
Proof.
  intros Hg. unfold mbind, M_bind at 1. rewrite Hg.
  unfold mbind, M_bind, mret, M_ret.
  destruct (execute_query drv conn sql params limit st1) as [[e|rows] st2];
    reflexivity.
Qed.


End Queries.

Section Transactions.

Variable drv : Driver.
Variable cfg : FileMakerConfig.
Variable repr : pyval -> string.


End Transactions.



(** ** Patterns *)

Section Like.







Lemma like_match_nil text : like_match "" text = true <-> text = "".
Proof. destruct text; simpl; split; congruence. Qed.



End Like.

Section Patients.

Variable drv : Driver.
Variable cfg : FileMakerConfig.
Variable repr : pyval -> string.


End Patients.




(** ** Sample runs *)

Example remove_all_prefix :
  remove_all "filemaker://" "filemaker://Patients" = "Patients".
Proof. reflexivity. Qed.

Example remove_all_every_occurrence :
  remove_all "filemaker://" "filemaker://Afilemaker://B" = "AB".
Proof. reflexivity. Qed.

Example connection_string_full :
  connection_string
    {| dsn := "FileMaker"; username := "admin"; password := "pw"; database := "" |}
    "Patients"
  = "DSN=FileMaker;ServerDataSource=Patients;UID=admin;PWD=pw".
Proof. reflexivity. Qed.

Example read_resource_foreign_scheme :
  read_resource Demo.driver Demo.cfg "file://Patients" initial_state
  = (inl (ValueError "Invalid URI scheme: file://Patients"), initial_state).
Proof. reflexivity. Qed.

Example read_resource_unreachable :
  fst (read_resource Demo.driver Demo.cfg "filemaker://Email" initial_state)
  = inr {| contents :=
             PDict [("error", PStr "[08001] Unable to connect to data source")] |}.
Proof. reflexivity. Qed.

Example duplicate_column_keeps_last :
  dict_of_pairs (zip ["id"; "name"; "id"] [PInt 1; PStr "Smith"; PInt 10])
  = [("id", PInt 10); ("name", PStr "Smith")].
Proof. reflexivity. Qed.

Example fetch_zero_rows :
  fst (execute_query Demo.driver Demo.conn "SELECT 1" None (PInt 0) initial_state)
  = inr [].
Proof. reflexivity. Qed.

Example like_literal_term : like_match "%Smith%" "Smith-Jones" = true.
Proof. reflexivity. Qed.

(** ** Runs of computations *)

Section Steps.

Context {R : state -> state -> Prop}.
Hypothesis R_refl : forall st, R st st.
Hypothesis R_trans : forall st1 st2 st3, R st1 st2 -> R st2 st3 -> R st1 st3.

Lemma mstep_ret {A : Type} (a : A) : mstep R (mret a).
Proof. intros st r st' H. inversion H; subst. apply R_refl. Qed.

Lemma mstep_raise {A : Type} (e : exn) : mstep R (@raise A e).
Proof. intros st r st' H. inversion H; subst. apply R_refl. Qed.

Lemma mstep_lift {A : Type} (x : exn + A) : mstep R (lift x).
Proof. intros st r st' H. inversion H; subst. apply R_refl. Qed.

Lemma mstep_bind {A B : Type} (m : M A) (f : A -> M B) :
  mstep R m -> (forall a, mstep R (f a)) -> mstep R (m ≫= f).
Proof.
  intros Hm Hf st r st' H. unfold mbind, M_bind in H.
  destruct (m st) as [[e|a] st1] eqn:Em.
  - inversion H; subst. eapply Hm; eassumption.
  - eapply R_trans; [eapply Hm; eassumption | eapply Hf; eassumption].
Qed.

Lemma mstep_try {A : Type} (body : M A) (handler : exn -> M A) :
  mstep R body -> (forall e, mstep R (handler e)) ->
  mstep R (try_except body handler).
Proof.
  intros Hm Hh st r st' H. unfold try_except in H.
  destruct (body st) as [[e|a] st1] eqn:Em.
  - eapply R_trans; [eapply Hm; eassumption | eapply Hh; eassumption].
  - inversion H; subst. eapply Hm; eassumption.
Qed.

End Steps.

Section Results.

Context {A : Type} (P : A -> Prop).




End Results.

(** The tactic that walks a handler: binds, returns, raises, and the case
    distinctions on arguments. *)
Ltac walk base :=
  repeat first
    [ apply mstep_ret; assumption
    | apply mstep_raise; assumption
    | apply mstep_lift; assumption
    | solve [base]
    | apply mstep_bind; [assumption | | intros ?]
    | apply mstep_try; [assumption | | intros ?]
    | match goal with
      | |- mstep _ (match ?x with _ => _ end) => destruct x
      | |- mstep _ (let '(_, _) := ?x in _) => destruct x
      end ].

Section Server_steps.

Variable drv : Driver.
Variable cfg : FileMakerConfig.
Variable repr : pyval -> string.

Variable R : state -> state -> Prop.
Variable ok_event : event -> Prop.
Hypothesis R_refl : forall st, R st st.
Hypothesis R_trans : forall st1 st2 st3, R st1 st2 -> R st2 st3 -> R st1 st3.
Hypothesis R_emit : forall st ev,
  ok_event ev ->
  R st {| connections := connections st; next_oid := next_oid st;
          trace := trace st ++ [ev] |}.

Lemma mstep_emit ev : ok_event ev -> mstep R (emit ev).
Proof. intros Hev st r st' H. inversion H; subst. apply R_emit. exact Hev. Qed.

Lemma mstep_execute_query self query params limit :
  (forall h, _connection self = Some h ->
             ok_event (EvExecute h query (bound_params params))
             /\ ok_event (EvFetchMany h limit)) ->
  mstep R (execute_query drv self query params limit).
Proof.
  intros Hok. unfold execute_query, cursor_execute, cursor_fetchmany.
  destruct (_connection self) as [h|]; [| walk idtac].
  destruct (Hok h eq_refl) as [Hexec Hfetch].
  walk ltac:(apply mstep_emit; assumption).
Qed.




(** From here on every event but a commit is admitted, a commit only for
    the tools that write, and the connection step is known to be a step. *)
Variable commit_ok : Prop.
Hypothesis ok_quiet : forall ev, (forall h, ev <> EvCommit h) -> ok_event ev.
Hypothesis ok_commit : commit_ok -> forall h, ok_event (EvCommit h).
Hypothesis R_get_connection : forall name, mstep R (get_connection drv cfg name).







End Server_steps.

(** ** What every request leaves in place *)

Section Growth.

Variable drv : Driver.
Variable cfg : FileMakerConfig.




(** The three ways [get_connection] can go. *)
Lemma get_connection_cases name st :
  (exists conn,
      connections st !! name = Some conn
      /\ get_connection drv cfg name st = (inr conn, st))
  \/ (exists h,
        connections st !! name = None
        /\ odbc_connect drv (target_string cfg name) = inr h
        /\ get_connection drv cfg name st
           = (inr {| oid := next_oid st; config := cfg; _connection := Some h |},
              {| connections :=
                   <[name := {| oid := next_oid st; config := cfg;
                                _connection := Some h |}]> (connections st);
                 next_oid := S (next_oid st);
                 trace := trace st ++ [EvConnect (target_string cfg name)] |}))
  \/ (exists e,
        connections st !! name = None
        /\ odbc_connect drv (target_string cfg name) = inl e
        /\ get_connection drv cfg name st
           = (inl e,
              {| connections := connections st;
                 next_oid := S (next_oid st);
                 trace := trace st ++ [EvConnect (target_string cfg name)] |})).
Proof.
  destruct (connections st !! name) as [conn|] eqn:Hc.
  - left. exists conn. split; [reflexivity |].
    apply get_connection_cached. exact Hc.
  - destruct (odbc_connect drv (target_string cfg name)) as [e|h] eqn:Hd.
    + right. right. exists e. split; [reflexivity |]. split; [reflexivity |].
      apply get_connection_refused; assumption.
    + right. left. exists h. split; [reflexivity |]. split; [reflexivity |].
      apply (get_connection_fresh drv cfg name st h); assumption.
Qed.





End Growth.





(** ** Answers *)



Section Answers.

Variable drv : Driver.
Variable cfg : FileMakerConfig.
Variable repr : pyval -> string.





End Answers.




(** ** Arguments *)

Section Arguments.

Variable drv : Driver.
Variable cfg : FileMakerConfig.
Variable repr : pyval -> string.







End Arguments.





(** ** Writes *)

Section Writes.

Variable drv : Driver.
Variable cfg : FileMakerConfig.
Variable repr : pyval -> string.

Lemma bound_params_some (values : list pyval) : bound_params (Some values) = values.
Proof. destruct values; reflexivity. Qed.

(** [execute_update] on a connection with a handle, case by case. *)
Lemma execute_update_run self query params st h :
  _connection self = Some h ->
  execute_update drv self query params st
  = match odbc_execute drv h query (bound_params params) with
    | inl e =>
        (inl e,
         {| connections := connections st; next_oid := next_oid st;
            trace := trace st ++ [EvExecute h query (bound_params params)] |})
    | inr res =>
        (match odbc_commit drv h with
         | inl e => inl e
         | inr _ => inr (rowcount res)
         end,
         {| connections := connections st; next_oid := next_oid st;
            trace := trace st ++ [EvExecute h query (bound_params params);
                                  EvCommit h] |})
    end.
Proof.
  intros Hconn.
  unfold execute_update, cursor_execute, emit, lift, mbind, M_bind, mret, M_ret.
  rewrite Hconn. simpl.
  destruct (odbc_execute drv h query (bound_params params)) as [e|res];
    [reflexivity |].
  simpl. rewrite <- app_assoc. simpl.
  destruct (odbc_commit drv h) as [e|[]]; reflexivity.
Qed.

(** A write handler once its connection is there. *)
Lemma write_handler_run name sql values (verb : string) st conn st1 :
  get_connection drv cfg name st = (inr conn, st1) ->
  (conn ← get_connection drv cfg name;
   affected ← execute_update drv conn sql (Some values);
   mret (ok_result
           [("success", PBool true);
            ("message", PStr (verb +:+ pretty affected +:+ " record(s)"))])) st
  = match execute_update drv conn sql (Some values) st1 with
    | (inl e, st2) => (inl e, st2)
    | (inr affected, st2) =>
        (inr (ok_result
                [("success", PBool true);
                 ("message", PStr (verb +:+ pretty affected +:+ " record(s)"))]),
         st2)
    end.
Proof.
  intros Hg. unfold mbind, M_bind at 1. rewrite Hg.
  unfold mbind, M_bind, mret, M_ret.
  destruct (execute_update drv conn sql (Some values) st1) as [[e|n] st2];
    reflexivity.
Qed.

Lemma write_tool_run name sql values verb st conn st1 h :
  get_connection drv cfg name st = (inr conn, st1) ->
  _connection conn = Some h ->
  try_except
    (conn ← get_connection drv cfg name;
     affected ← execute_update drv conn sql (Some values);
     mret (ok_result
             [("success", PBool true);
              ("message", PStr (verb +:+ pretty affected +:+ " record(s)"))]))
    (fun e => mret (failure_result e)) st
  = (inr (write_answer verb (odbc_execute drv h sql values) (odbc_commit drv h)),
     {| connections := connections st1; next_oid := next_oid st1;
        trace := trace st1 ++
                 EvExecute h sql values
                 :: match odbc_execute drv h sql values with
                    | inl _ => []
                    | inr _ => [EvCommit h]
                    end |}).
Proof.
  intros Hg Hconn. unfold try_except.
  rewrite (write_handler_run _ _ _ _ _ _ _ Hg).
  rewrite (execute_update_run _ _ _ _ _ Hconn), bound_params_some.
  unfold write_answer.
  destruct (odbc_execute drv h sql values) as [e|res]; [reflexivity |].
  destruct (odbc_commit drv h) as [e|[]]; reflexivity.
Qed.

End Writes.

(** X8.  [execute_update] commits right after the statement and only then:
    on a connection with a handle it sends the statement with its values
    once; when the driver rejects it the error is raised and no commit
    follows; when the driver accepts it one commit follows at once, and the
    call returns the row count of the statement, or raises the error of the
    commit. *)
Theorem execute_update_commits_once (drv : Driver) (self : FileMakerConnection)
    (query : string) (params : option (list pyval)) (st st' : state)
    (r : exn + Z) (h : handle) :
  _connection self = Some h ->
  execute_update drv self query params st = (r, st') ->
  match odbc_execute drv h query (bound_params params) with
  | inl e =>
      r = inl e
      /\ trace st' = trace st ++ [EvExecute h query (bound_params params)]
  | inr res =>
      r = match odbc_commit drv h with
          | inl e => inl e
          | inr _ => inr (rowcount res)
          end
      /\ trace st' = trace st ++ [EvExecute h query (bound_params params);
                                  EvCommit h]
  end.
Proof.
  intros Hconn Hrun. rewrite (execute_update_run drv _ _ _ _ _ Hconn) in Hrun.
  destruct (odbc_execute drv h query (bound_params params)) as [e|res];
    inversion Hrun; subst; split; reflexivity.
Qed.

Lemma execute_update_commits_once_witness :
  exists r st',
    execute_update Demo.driver Demo.conn "DELETE FROM Notes" None initial_state
    = (r, st')
    /\ r = inr (-1)
    /\ trace st' = [EvExecute 7%nat "DELETE FROM Notes" []; EvCommit 7%nat].
Proof.
  eexists. eexists. split; [cbv; reflexivity |].
  apply (execute_update_commits_once Demo.driver Demo.conn "DELETE FROM Notes"
           None initial_state); cbv; reflexivity.
Defined.

(** X9.  [insert_record], given a database name, a table and a dict of
    data, with the connection to that database at hand: it sends one
    statement, [INSERT INTO <table> (<keys>) VALUES (<one ? per key>)], keys
    in the order of the dict and the values bound in the same order, commits
    when and only when the driver accepted the statement, and answers with
    the success envelope that reports the row count, or with the failure
    envelope of the driver's error.  Nothing is sent twice. *)
Theorem insert_record_run (drv : Driver) (cfg : FileMakerConfig)
    (repr : pyval -> string) (arguments : pydict) (st st1 : state)
    (db : string) (table : pyval) (data : pydict)
    (conn : FileMakerConnection) (h : handle) :
  dict_get "database" arguments = Some (PStr db) ->
  dict_get "table" arguments = Some table ->
  dict_get "data" arguments = Some (PDict data) ->
  get_connection drv cfg db st = (inr conn, st1) ->
  _connection conn = Some h ->
  let sql := insert_statement (py_format repr table) data in
  let values := dict_values data in
  exists st',
    call_tool drv cfg repr "insert_record" arguments st
    = (inr (write_answer "Inserted " (odbc_execute drv h sql values)
              (odbc_commit drv h)), st')
    /\ trace st' =
         trace st1 ++
         EvExecute h sql values
         :: match odbc_execute drv h sql values with
            | inl _ => []
            | inr _ => [EvCommit h]
            end.
Proof.
  intros Hdb Htable Hdata Hg Hconn sql values.
  eexists. split.
  - unfold call_tool, dispatch. cbn [String.eqb Ascii.eqb Bool.eqb].
    unfold tool_insert_record, arg_item. rewrite Hdb, Htable, Hdata.
    unfold try_except at 1.
    unfold mbind at 1 2 3 4 5, M_bind at 1 2 3 4 5, as_dict, as_str, mret, M_ret.
    fold (@mret M M_ret). 
    exact (write_tool_run drv cfg db sql values "Inserted " st conn st1 h Hg Hconn).
  - reflexivity.
Qed.

Lemma insert_record_run_witness :
  exists st',
    call_tool Demo.driver Demo.cfg Demo.repr "insert_record"
      [("database", PStr "Patients"); ("table", PStr "Notes");
       ("data", PDict [("id", PInt 4); ("name", PStr "Smith")])] initial_state
    = (inr (ok_result [("success", PBool true);
                       ("message", PStr "Inserted -1 record(s)")]), st')
    /\ statements (trace st') = ["INSERT INTO Notes (id, name) VALUES (?, ?)"]
    /\ commits (trace st') = [39%nat].
Proof.
  edestruct (insert_record_run Demo.driver Demo.cfg Demo.repr
               [("database", PStr "Patients"); ("table", PStr "Notes");
                ("data", PDict [("id", PInt 4); ("name", PStr "Smith")])]
               initial_state) as (st' & Hcall & Htrace).
  - reflexivity.
  - reflexivity.
  - reflexivity.
  - eapply get_connection_fresh; reflexivity.
  - reflexivity.
  - exists st'. split; [exact Hcall |]. rewrite Htrace. split; reflexivity.
Defined.

(** X10.  [update_record], given a database name, a table, a dict of data
    and a where text, with the connection at hand: it sends one statement,
    [UPDATE <table> SET <key = ?, ...> WHERE <where>], the where text put in
    as given and only the data values bound, in the order of the dict;
    it commits when and only when the driver accepted the statement, and
    answers like [insert_record]. *)
Theorem update_record_run (drv : Driver) (cfg : FileMakerConfig)
    (repr : pyval -> string) (arguments : pydict) (st st1 : state)
    (db : string) (table where_ : pyval) (data : pydict)
    (conn : FileMakerConnection) (h : handle) :
  dict_get "database" arguments = Some (PStr db) ->
  dict_get "table" arguments = Some table ->
  dict_get "data" arguments = Some (PDict data) ->
  dict_get "where" arguments = Some where_ ->
  get_connection drv cfg db st = (inr conn, st1) ->
  _connection conn = Some h ->
  let sql := update_statement (py_format repr table) data
               (py_format repr where_) in
  let values := dict_values data in
  exists st',
    call_tool drv cfg repr "update_record" arguments st
    = (inr (write_answer "Updated " (odbc_execute drv h sql values)
              (odbc_commit drv h)), st')
    /\ trace st' =
         trace st1 ++
         EvExecute h sql values
         :: match odbc_execute drv h sql values with
            | inl _ => []
            | inr _ => [EvCommit h]
            end.
Proof.
  intros Hdb Htable Hdata Hwhere Hg Hconn sql values.
  eexists. split.
  - unfold call_tool, dispatch. cbn [String.eqb Ascii.eqb Bool.eqb].
    unfold tool_update_record, arg_item. rewrite Hdb, Htable, Hdata, Hwhere.
    unfold try_except at 1.
    unfold mbind at 1 2 3 4 5 6, M_bind at 1 2 3 4 5 6, as_dict, as_str,
      mret, M_ret.
    fold (@mret M M_ret).
    exact (write_tool_run drv cfg db sql values "Updated " st conn st1 h Hg Hconn).
  - reflexivity.
Qed.

Lemma update_record_run_witness :
  exists st',
    call_tool Demo.driver Demo.cfg Demo.repr "update_record"
      [("database", PStr "Patients"); ("table", PStr "Notes");
       ("data", PDict [("name", PStr "Smythe")]); ("where", PStr "id = 4")]
      initial_state
    = (inr (ok_result [("success", PBool true);
                       ("message", PStr "Updated -1 record(s)")]), st')
    /\ statements (trace st') = ["UPDATE Notes SET name = ? WHERE id = 4"]
    /\ commits (trace st') = [39%nat].
Proof.
  edestruct (update_record_run Demo.driver Demo.cfg Demo.repr
               [("database", PStr "Patients"); ("table", PStr "Notes");
                ("data", PDict [("name", PStr "Smythe")]);
                ("where", PStr "id = 4")]
               initial_state) as (st' & Hcall & Htrace).
  - reflexivity.
  - reflexivity.
  - reflexivity.
  - reflexivity.
  - eapply get_connection_fresh; reflexivity.
  - reflexivity.
  - exists st'. split; [exact Hcall |]. rewrite Htrace. split; reflexivity.
Defined.

(** X11.  A write tool whose [data] argument is present but is not a dict
    fails before a connection is opened: with the other required arguments
    present, the answer is the failure envelope of the attribute error and
    the state is as before the call. *)
Theorem write_tool_rejects_other_data (drv : Driver) (cfg : FileMakerConfig)
    (repr : pyval -> string) (tool : string) (arguments : pydict)
    (data : pyval) (st : state) :
  In tool write_tools ->
  first_missing (required_arguments tool) arguments = None ->
  dict_get "data" arguments = Some data ->
  (forall d, data <> PDict d) ->
  call_tool drv cfg repr tool arguments st
  = (inr (failure_result
            (AttributeError
               ("'" +:+ type_name_of data +:+ "' object has no attribute 'keys'"))),
     st).
Proof.
  intros Hin Hfm Hdata Hnot. simpl in Hin.
  destruct Hin as [<- | [<- | []]];
    cbn in Hfm; unfold call_tool, try_except, dispatch;
    cbn [String.eqb Ascii.eqb Bool.eqb];
    unfold tool_insert_record, tool_update_record, arg_item;
    rewrite Hdata in *;
    repeat match type of Hfm with
           | context [dict_get ?key arguments] =>
               destruct (dict_get key arguments) eqn:?; cbn in Hfm
           end;
    try discriminate;
    unfold mbind, M_bind, mret, M_ret, as_dict, raise;
    destruct data; try reflexivity; exfalso; eapply Hnot; reflexivity.
Qed.

Lemma write_tool_rejects_other_data_witness :
  call_tool Demo.offline Demo.cfg Demo.repr "insert_record"
    [("database", PStr "Patients"); ("table", PStr "Notes");
     ("data", PList [PInt 4])] initial_state
  = (inr (failure_result
            (AttributeError "'list' object has no attribute 'keys'")),
     initial_state).
Proof.
  apply (write_tool_rejects_other_data Demo.offline Demo.cfg Demo.repr
           "insert_record" _ (PList [PInt 4]) initial_state).
  - simpl. tauto.
  - reflexivity.
  - reflexivity.
  - intros d. discriminate.
Defined.

(** ** Reads *)

Section Reads.

Variable drv : Driver.
Variable cfg : FileMakerConfig.
Variable repr : pyval -> string.

(** The exact trace of [execute_query] on a connection with a handle. *)
Lemma execute_query_events self query params limit st r st' h :
  _connection self = Some h ->
  execute_query drv self query params limit st = (r, st') ->
  trace st' =
    trace st ++
    EvExecute h query (bound_params params)
    :: match odbc_execute drv h query (bound_params params) with
       | inl _ => []
       | inr _ => [EvFetchMany h limit]
       end.
Proof.
  intros Hconn Hrun.
  destruct (odbc_execute drv h query (bound_params params)) as [e|res] eqn:Hexec.
  - rewrite (execute_query_rejected drv _ _ _ _ _ _ _ Hconn Hexec) in Hrun.
    inversion Hrun; subst. reflexivity.
  - rewrite (execute_query_accepted drv _ _ _ _ _ _ _ Hconn Hexec) in Hrun.
    unfold cursor_fetchmany, emit, raise, mbind, M_bind, mret, M_ret in Hrun.
    simpl in Hrun.
    destruct (description res); [destruct limit |];
      inversion Hrun; subst; simpl; rewrite <- app_assoc; reflexivity.
Qed.

(** [get_appointments] once the connection to [Appointments] is there. *)
Lemma get_appointments_run (arguments : pydict) st conn st1 date :
  dict_get "date" arguments = Some date ->
  get_connection drv cfg "Appointments" st = (inr conn, st1) ->
  let end_date := arg_get "end_date" arguments PNone in
  let patient_id := arg_get "patient_id" arguments PNone in
  call_tool drv cfg repr "get_appointments" arguments st
  = match execute_query drv conn
            (appointments_statement (truthy end_date) (truthy patient_id))
            (Some (appointments_parameters date end_date patient_id))
            (arg_get "limit" arguments (PInt 100)) st1 with
    | (inl e, st2) => (inr (failure_result e), st2)
    | (inr rows, st2) => (inr (rows_result rows), st2)
    end.
Proof.
  intros Hdate Hg end_date patient_id.
  unfold call_tool, try_except, dispatch.
  cbn [String.eqb Ascii.eqb Bool.eqb].
  unfold tool_get_appointments, arg_item. rewrite Hdate.
  unfold mbind, M_bind at 1. unfold mret, M_ret at 1.
  fold end_date patient_id. unfold appointments_parameters.
  destruct (truthy end_date), (truthy patient_id); cbn [app];
    rewrite (read_handler_run drv cfg _ _ _ _ _ _ _ Hg);
    destruct (execute_query _ _ _ _ _ _) as [[e|rows] st2]; reflexivity.
Qed.

(** [query] once the connection is there. *)
Lemma query_run (arguments : pydict) st conn st1 db sql :
  dict_get "database" arguments = Some (PStr db) ->
  dict_get "sql" arguments = Some (PStr sql) ->
  get_connection drv cfg db st = (inr conn, st1) ->
  call_tool drv cfg repr "query" arguments st
  = match execute_query drv conn sql None
            (arg_get "limit" arguments (PInt 100)) st1 with
    | (inl e, st2) => (inr (failure_result e), st2)
    | (inr rows, st2) => (inr (rows_result rows), st2)
    end.
Proof.
  intros Hdb Hsql Hg.
  unfold call_tool, try_except, dispatch.
  cbn [String.eqb Ascii.eqb Bool.eqb].
  unfold tool_query, arg_item. rewrite Hdb, Hsql.
  unfold as_str. unfold mbind, M_bind, mret, M_ret. cbn beta iota. rewrite Hg.
  cbn beta iota.
  destruct (execute_query _ _ _ _ _ _) as [[e|rows] st2]; reflexivity.
Qed.

End Reads.

(** X12.  [get_appointments], with the connection to [Appointments] at
    hand, sends one statement: [SELECT * FROM Appointments WHERE dateappt]
    with [BETWEEN ? AND ?] when an end date is given and [= ?] otherwise,
    then [AND "patient id#" = ?] when a patient is given, then
    [ORDER BY timeappt]; the values bound are the date, the end date and the
    patient, those that are given, in this order.  An end date or a patient
    that is empty counts as not given. *)
Theorem get_appointments_statement (drv : Driver) (cfg : FileMakerConfig)
    (repr : pyval -> string) (arguments : pydict) (st st1 : state)
    (conn : FileMakerConnection) (h : handle) (date : pyval) :
  dict_get "date" arguments = Some date ->
  get_connection drv cfg "Appointments" st = (inr conn, st1) ->
  _connection conn = Some h ->
  let end_date := arg_get "end_date" arguments PNone in
  let patient_id := arg_get "patient_id" arguments PNone in
  let sql := appointments_statement (truthy end_date) (truthy patient_id) in
  let params := appointments_parameters date end_date patient_id in
  exists r st',
    call_tool drv cfg repr "get_appointments" arguments st = (inr r, st')
    /\ trace st' =
         trace st1 ++
         EvExecute h sql params
         :: match odbc_execute drv h sql params with
            | inl _ => []
            | inr _ => [EvFetchMany h (arg_get "limit" arguments (PInt 100))]
            end.
Proof.
  intros Hdate Hg Hconn end_date patient_id sql params.
  pose proof (get_appointments_run drv cfg repr arguments st conn st1 date Hdate Hg)
    as Hrun.
  cbv zeta in Hrun. fold end_date patient_id sql params in Hrun.
  destruct (execute_query drv conn sql (Some params) _ st1) as [r st2] eqn:Hq
    in Hrun.
  pose proof (execute_query_events drv _ _ _ _ _ _ _ _ Hconn Hq) as Htrace.
  assert (Hbp : bound_params (Some params) = params) by reflexivity.
  rewrite Hbp in Htrace.
  destruct r as [e|rows]; eexists; eexists; (split; [exact Hrun | exact Htrace]).
Qed.

Lemma get_appointments_statement_witness :
  exists r st',
    call_tool Demo.driver Demo.cfg Demo.repr "get_appointments"
      [("date", PStr "2024-01-02"); ("end_date", PStr "");
       ("patient_id", PStr "17")] initial_state = (inr r, st')
    /\ statements (trace st') =
         ["SELECT * FROM Appointments WHERE dateappt = ? AND "
          +:+ quoted "patient id#" +:+ " = ? ORDER BY timeappt"].
Proof.
  edestruct (get_appointments_statement Demo.driver Demo.cfg Demo.repr
               [("date", PStr "2024-01-02"); ("end_date", PStr "");
                ("patient_id", PStr "17")] initial_state)
    as (r & st' & Hcall & Htrace).
  - reflexivity.
  - eapply get_connection_fresh; reflexivity.
  - reflexivity.
  - exists r, st'. split; [exact Hcall |]. rewrite Htrace. reflexivity.
Defined.

(** X13.  [query], given a database name and a statement text, with the
    connection at hand, hands the driver exactly that text, with no values
    bound, whatever the text is, and then fetches with the limit as the
    request gave it (100 when it gave none), unchecked. *)
Theorem query_sends_text_verbatim (drv : Driver) (cfg : FileMakerConfig)
    (repr : pyval -> string) (arguments : pydict) (st st1 : state)
    (conn : FileMakerConnection) (h : handle) (db sql : string) :
  dict_get "database" arguments = Some (PStr db) ->
  dict_get "sql" arguments = Some (PStr sql) ->
  get_connection drv cfg db st = (inr conn, st1) ->
  _connection conn = Some h ->
  exists r st',
    call_tool drv cfg repr "query" arguments st = (inr r, st')
    /\ trace st' =
         trace st1 ++
         EvExecute h sql []
         :: match odbc_execute drv h sql [] with
            | inl _ => []
            | inr _ => [EvFetchMany h (arg_get "limit" arguments (PInt 100))]
            end.
Proof.
  intros Hdb Hsql Hg Hconn.
  pose proof (query_run drv cfg repr arguments st conn st1 db sql Hdb Hsql Hg)
    as Hrun.
  destruct (execute_query drv conn sql None _ st1) as [r st2] eqn:Hq in Hrun.
  pose proof (execute_query_events drv _ _ _ _ _ _ _ _ Hconn Hq) as Htrace.
  simpl in Htrace.
  destruct r as [e|rows]; eexists; eexists; (split; [exact Hrun | exact Htrace]).
Qed.

Lemma query_sends_text_verbatim_witness :
  exists r st',
    call_tool Demo.driver Demo.cfg Demo.repr "query"
      [("database", PStr "Patients"); ("sql", PStr "DELETE FROM Notes");
       ("limit", PInt (-1))] initial_state = (inr r, st')
    /\ trace st' =
         [EvConnect (target_string Demo.cfg "Patients");
          EvExecute 39%nat "DELETE FROM Notes" [];
          EvFetchMany 39%nat (PInt (-1))].
Proof.
  edestruct (query_sends_text_verbatim Demo.driver Demo.cfg Demo.repr
               [("database", PStr "Patients"); ("sql", PStr "DELETE FROM Notes");
                ("limit", PInt (-1))] initial_state)
    as (r & st' & Hcall & Htrace).
  - reflexivity.
  - reflexivity.
  - eapply get_connection_fresh; reflexivity.
  - reflexivity.
  - exists r, st'. split; [exact Hcall |]. rewrite Htrace. reflexivity.
Defined.

(** ** Placeholders *)

Section Placeholders.

Variable drv : Driver.
Variable cfg : FileMakerConfig.
Variable repr : pyval -> string.

Lemma adds_balanced_refl st : adds_balanced st st.
Proof. exists []. rewrite app_nil_r. split; [reflexivity | constructor]. Qed.

Lemma adds_balanced_trans st1 st2 st3 :
  adds_balanced st1 st2 -> adds_balanced st2 st3 -> adds_balanced st1 st3.
Proof.
  intros (evs1 & H1 & F1) (evs2 & H2 & F2). exists (evs1 ++ evs2).
  rewrite H2, H1, app_assoc. split; [reflexivity |].
  apply Forall_app. split; assumption.
Qed.

Lemma adds_balanced_emit st ev :
  balanced ev ->
  adds_balanced st {| connections := connections st; next_oid := next_oid st;
                      trace := trace st ++ [ev] |}.
Proof. intros Hev. exists [ev]. split; [reflexivity | repeat constructor; exact Hev]. Qed.

Lemma adds_balanced_get_connection name :
  mstep adds_balanced (get_connection drv cfg name).
Proof.
  intros st r st' Hrun.
  destruct (get_connection_cases drv cfg name st)
    as [(conn & Hc & Heq) | [(h & Hc & Hd & Heq) | (e & Hc & Hd & Heq)]];
    rewrite Heq in Hrun; inversion Hrun; subst.
  - apply adds_balanced_refl.
  - eexists. split; [reflexivity | repeat constructor].
  - eexists. split; [reflexivity | repeat constructor].
Qed.

Lemma parameterised_reads_step tool (arguments : pydict) :
  In tool ["get_appointments"; "get_transactions"] ->
  mstep adds_balanced (call_tool drv cfg repr tool arguments).
Proof.
  intros Hin.
  assert (Hrefl := adds_balanced_refl).
  assert (Htrans := adds_balanced_trans).
  unfold call_tool. apply mstep_try; [exact Htrans | | intros e; apply mstep_ret; exact Hrefl].
  destruct Hin as [<- | [<- | []]];
    unfold dispatch; cbn [String.eqb Ascii.eqb Bool.eqb].
  - unfold tool_get_appointments, arg_item.
    destruct (truthy (arg_get "end_date" arguments PNone)),
      (truthy (arg_get "patient_id" arguments PNone));
      walk ltac:(first
        [ apply adds_balanced_get_connection
        | apply (mstep_execute_query drv adds_balanced balanced Hrefl Htrans
                   adds_balanced_emit);
          intros h _; split; [reflexivity | exact I] ]).
  - unfold tool_get_transactions, transactions_filters.
    destruct (truthy (arg_get "patient_id" arguments PNone)),
      (truthy (arg_get "start_date" arguments PNone)),
      (truthy (arg_get "end_date" arguments PNone));
      cbn [app];
      walk ltac:(first
        [ apply adds_balanced_get_connection
        | apply (mstep_execute_query drv adds_balanced balanced Hrefl Htrans
                   adds_balanced_emit);
          intros h _; split; [reflexivity | exact I] ]).
Qed.

End Placeholders.

(** X14.  The statements that [get_appointments] and [get_transactions]
    build are balanced: whatever the arguments and the state, every
    statement such a call hands to the driver has exactly as many [?]
    placeholders as values bound to it. *)
Theorem parameterised_reads_balanced (drv : Driver) (cfg : FileMakerConfig)
    (repr : pyval -> string) (tool : string) (arguments : pydict) (st : state) :
  In tool ["get_appointments"; "get_transactions"] ->
  exists evs,
    trace (snd (call_tool drv cfg repr tool arguments st)) = trace st ++ evs
    /\ Forall balanced evs.
Proof.
  intros Hin.
  destruct (call_tool drv cfg repr tool arguments st) as [r st'] eqn:Hrun.
  exact (parameterised_reads_step drv cfg repr tool arguments Hin _ _ _ Hrun).
Qed.

Lemma parameterised_reads_balanced_witness :
  exists evs,
    trace (snd (call_tool Demo.driver Demo.cfg Demo.repr "get_transactions"
                  [("patient_id", PStr "17"); ("end_date", PStr "2024-02-01")]
                  initial_state))
    = trace initial_state ++ evs
    /\ Forall balanced evs.
Proof.
  apply (parameterised_reads_balanced Demo.driver Demo.cfg Demo.repr
           "get_transactions").
  simpl. tauto.
Defined.

Section Builders.

Lemma placeholders_app (a b : string) :
  placeholders (a +:+ b) = (placeholders a + placeholders b)%nat.
Proof.
  induction a as [|c a IH]; [reflexivity |].
  change (String c a +:+ b) with (String c (a +:+ b)).
  cbn [placeholders]. rewrite IH. lia.
Qed.

Lemma placeholders_join_marks {A : Type} (l : list A) :
  placeholders (join ", " (map (fun _ => "?") l)) = length l.
Proof.
  induction l as [|x l IH]; [reflexivity |].
  destruct l as [|y l]; [reflexivity |].
  change (join ", " (map (fun _ : A => "?") (x :: y :: l)))
    with ("?" +:+ ", " +:+ join ", " (map (fun _ : A => "?") (y :: l))).
  rewrite !placeholders_app, IH. reflexivity.
Qed.

Lemma placeholders_join_clean (keys : list string) :
  Forall (fun k => placeholders k = O) keys ->
  placeholders (join ", " keys) = O.
Proof.
  induction 1 as [|k keys Hk Hkeys IH]; [reflexivity |].
  destruct keys as [|k' keys]; [exact Hk |].
  change (join ", " (k :: k' :: keys)) with (k +:+ ", " +:+ join ", " (k' :: keys)).
  rewrite !placeholders_app, IH, Hk. reflexivity.
Qed.

Lemma placeholders_join_assignments (keys : list string) :
  Forall (fun k => placeholders k = O) keys ->
  placeholders (join ", " (map (fun k => k +:+ " = ?") keys)) = length keys.
Proof.
  induction 1 as [|k keys Hk Hkeys IH]; [reflexivity |].
  destruct keys as [|k' keys].
  - cbn [map join]. rewrite placeholders_app, Hk. reflexivity.
  - change (join ", " (map (fun k => k +:+ " = ?") (k :: k' :: keys)))
      with ((k +:+ " = ?") +:+ ", "
            +:+ join ", " (map (fun k => k +:+ " = ?") (k' :: keys))).
    rewrite !placeholders_app, IH, Hk. reflexivity.
Qed.

End Builders.

(** X15.  When neither the table text nor a key of the data contains a
    [?], the statement of [insert_record] has exactly one placeholder per
    value it binds, and the statement of [update_record] has one per value
    plus those of the where text: the where text is put into the statement
    as it is, and no value is bound for a placeholder in it. *)
Theorem write_statements_placeholders (table where_ : string) (data : pydict) :
  placeholders table = O ->
  Forall (fun k => placeholders k = O) (dict_keys data) ->
  placeholders (insert_statement table data) = length (dict_values data)
  /\ placeholders (update_statement table data where_)
     = (length (dict_values data) + placeholders where_)%nat.
Proof.
  intros Ht Hk. unfold insert_statement, update_statement, dict_values.
  rewrite !placeholders_app, Ht.
  rewrite (placeholders_join_clean _ Hk), placeholders_join_marks.
  rewrite (placeholders_join_assignments _ Hk).
  unfold dict_keys. rewrite !length_map. cbn [placeholders Ascii.eqb]. simpl.
  split; lia.
Qed.

Lemma write_statements_placeholders_witness :
  placeholders (insert_statement "Notes" [("name", PStr "x")]) = 1%nat
  /\ placeholders
       (update_statement "Notes" [("name", PStr "x")] "id = ?")
     = 2%nat.
Proof.
  apply (write_statements_placeholders "Notes" "id = ?").
  - reflexivity.
  - repeat constructor.
Defined.

(** ** Resources *)

Section Uris.





End Uris.




(** ** Connections made by a listing *)

Section Listing.

Variable drv : Driver.
Variable cfg : FileMakerConfig.

Lemma connects_app tr evs : connects (tr ++ evs) = connects tr ++ connects evs.
Proof.
  induction tr as [|ev tr IH]; simpl; [reflexivity |].
  destruct ev; simpl; rewrite IH; reflexivity.
Qed.

Lemma get_tables_quiet conn st r st' :
  get_tables drv conn st = (r, st') ->
  connections st' = connections st
  /\ connects (trace st') = connects (trace st).
Proof.
  unfold get_tables, emit, lift, raise, mbind, M_bind, mret, M_ret.
  destruct (_connection conn) as [h|].
  - simpl. destruct (odbc_tables drv h); intros H; inversion H; subst; simpl;
      rewrite connects_app, app_nil_r; split; reflexivity.
  - intros H. inversion H; subst. split; reflexivity.
Qed.

Lemma database_entry_connects db st r st' :
  try_except (database_entry drv cfg db)
    (fun e => mret (PDict [("error", PStr (str_exn e))])) st = (r, st') ->
  connects (trace st')
  = connects (trace st)
    ++ (if unregistered st db then [target_string cfg db] else [])
  /\ forall other, other <> db ->
       connections st' !! other = connections st !! other.
Proof.
  unfold try_except, database_entry, unregistered, mbind, M_bind, mret, M_ret.
  destruct (get_connection_cases drv cfg db st)
    as [(conn & Hc & Heq) | [(h & Hc & Hd & Heq) | (e & Hc & Hd & Heq)]];
    rewrite Heq, Hc.
  - destruct (get_tables drv conn st) as [[e|tables] st2] eqn:Ht;
      destruct (get_tables_quiet _ _ _ _ Ht) as [Hreg Htr];
      intros H; inversion H; subst; rewrite Htr, Hreg, app_nil_r; auto.
  - match goal with
    | |- context [get_tables drv ?c ?s] =>
        destruct (get_tables drv c s) as [[e|tables] st2] eqn:Ht;
        destruct (get_tables_quiet _ _ _ _ Ht) as [Hreg Htr]
    end;
      intros H; inversion H; subst; rewrite Htr, Hreg; simpl;
      rewrite connects_app; (split; [reflexivity |]);
      intros other Hne; apply lookup_insert_ne; congruence.
  - intros H. inversion H; subst. simpl. rewrite connects_app. auto.
Qed.

Lemma list_all_loop_connects dbs :
  NoDup dbs ->
  forall (info : pydict) st r st',
    list_all_loop drv cfg dbs info st = (r, st') ->
    connects (trace st')
    = connects (trace st)
      ++ map (target_string cfg) (List.filter (unregistered st) dbs)
    /\ forall other, ~ In other dbs ->
         connections st' !! other = connections st !! other.
Proof.
  induction 1 as [|db rest Hfresh Hnodup IH]; intros info st r st' Hrun.
  - inversion Hrun; subst. simpl. rewrite app_nil_r. auto.
  - cbn [list_all_loop] in Hrun. unfold mbind, M_bind at 1 in Hrun.
    destruct (try_except _ _ st) as [[e|entry] st1] eqn:Hstep in Hrun.
    + exfalso. unfold try_except in Hstep.
      destruct (database_entry drv cfg db st) as [[e'|v] st0]; discriminate.
    + destruct (database_entry_connects _ _ _ _ Hstep) as [Hc1 Hf1].
      destruct (IH _ _ _ _ Hrun) as [Hc2 Hf2].
      rewrite list_elem_of_In in Hfresh.
      assert (Hsame : List.filter (unregistered st1) rest
                      = List.filter (unregistered st) rest).
      { apply filter_ext_in. intros d Hd. unfold unregistered.
        rewrite Hf1; [reflexivity | intros ->; contradiction]. }
      split.
      * rewrite Hc2, Hc1, Hsame. cbn [List.filter].
        destruct (unregistered st db); cbn [map]; rewrite <- app_assoc; reflexivity.
      * intros other Hnot. simpl in Hnot.
        rewrite Hf2 by tauto. apply Hf1. intros ->. tauto.
Qed.

End Listing.

(** X17.  [list_all_databases] opens a connection for exactly the
    databases of the catalogue that have none in the registry, once each and
    in the order of the catalogue; for a database that has one it asks the
    driver for no connection.  A repeated listing therefore connects again
    only to the databases whose connection was refused. *)
Theorem list_all_databases_connects (drv : Driver) (cfg : FileMakerConfig)
    (repr : pyval -> string) (arguments : pydict) (st : state) :
  connects (trace (snd (call_tool drv cfg repr "list_all_databases" arguments st)))
  = connects (trace st)
    ++ map (target_string cfg)
         (List.filter (unregistered st) FILEMAKER_DATABASES).
Proof.
  assert (Hnodup : NoDup FILEMAKER_DATABASES).
  { apply (bool_decide_unpack _). vm_compute. exact I. }
  unfold call_tool, try_except, dispatch.
  cbn [String.eqb Ascii.eqb Bool.eqb].
  unfold tool_list_all_databases, mbind, M_bind, mret, M_ret.
  destruct (list_all_loop drv cfg FILEMAKER_DATABASES [] st) as [[e|info] st'] eqn:Hrun;
    destruct (list_all_loop_connects drv cfg _ Hnodup _ _ _ _ Hrun) as [Hc _];
    exact Hc.
Qed.

(** ** The schema document *)

Section Schema.

Variable drv : Driver.
Variable cfg : FileMakerConfig.




End Schema.



(** ** Introspection tools *)

(** X19.  [list_tables], given a database name, with the connection at
    hand, asks the driver once for the tables and answers with the success
    envelope that repeats the database name and lists the names of the base
    tables in the driver's order, views and other kinds left out; when the
    driver refuses, it answers with the failure envelope of that error. *)
Theorem list_tables_answer (drv : Driver) (cfg : FileMakerConfig)
    (repr : pyval -> string) (arguments : pydict) (st st1 : state)
    (db : string) (conn : FileMakerConnection) (h : handle) :
  dict_get "database" arguments = Some (PStr db) ->
  get_connection drv cfg db st = (inr conn, st1) ->
  _connection conn = Some h ->
  call_tool drv cfg repr "list_tables" arguments st
  = (inr match odbc_tables drv h with
         | inl e => failure_result e
         | inr rows =>
             ok_result [("success", PBool true);
                        ("database", PStr db);
                        ("tables", PList (map PStr (base_tables rows)))]
         end,
     {| connections := connections st1; next_oid := next_oid st1;
        trace := trace st1 ++ [EvTables h] |}).
Proof.
  intros Hdb Hg Hconn.
  unfold call_tool, try_except, dispatch.
  cbn [String.eqb Ascii.eqb Bool.eqb].
  unfold tool_list_tables, arg_item. rewrite Hdb.
  unfold as_str. unfold mbind, M_bind, mret, M_ret. cbn beta iota.
  rewrite Hg. cbn beta iota.
  unfold get_tables, emit, lift, mbind, M_bind, mret, M_ret. rewrite Hconn.
  cbn beta iota. destruct (odbc_tables drv h) as [e|rows]; reflexivity.
Qed.

Lemma list_tables_answer_witness :
  exists st',
    call_tool Demo.driver Demo.cfg Demo.repr "list_tables"
      [("database", PStr "Patients")] initial_state
    = (inr (ok_result [("success", PBool true);
                       ("database", PStr "Patients");
                       ("tables", PList [PStr "Main"; PStr "Notes"])]), st').
Proof.
  eexists.
  eapply (list_tables_answer Demo.driver Demo.cfg Demo.repr
            [("database", PStr "Patients")] initial_state).
  - reflexivity.
  - eapply get_connection_fresh; reflexivity.
  - reflexivity.
Defined.

(** X20.  [describe_table], given a database name and a table name, with
    the connection at hand, asks the driver once for the columns of that
    table and answers with the success envelope that repeats both names and
    gives one entry per column in the driver's order; a table for which the
    driver reports no column, such as one that does not exist, gives a
    success with an empty column list.  When the driver refuses, the answer
    is the failure envelope of that error. *)
Theorem describe_table_answer (drv : Driver) (cfg : FileMakerConfig)
    (repr : pyval -> string) (arguments : pydict) (st st1 : state)
    (db table : string) (conn : FileMakerConnection) (h : handle) :
  dict_get "database" arguments = Some (PStr db) ->
  dict_get "table" arguments = Some (PStr table) ->
  get_connection drv cfg db st = (inr conn, st1) ->
  _connection conn = Some h ->
  call_tool drv cfg repr "describe_table" arguments st
  = (inr match odbc_columns drv h table with
         | inl e => failure_result e
         | inr rows =>
             ok_result [("success", PBool true);
                        ("database", PStr db);
                        ("table", PStr table);
                        ("columns",
                         PList (map (fun row => PDict (column_document row))
                                  rows))]
         end,
     {| connections := connections st1; next_oid := next_oid st1;
        trace := trace st1 ++ [EvColumns h table] |}).
Proof.
  intros Hdb Htable Hg Hconn.
  unfold call_tool, try_except, dispatch.
  cbn [String.eqb Ascii.eqb Bool.eqb].
  unfold tool_describe_table, arg_item. rewrite Hdb, Htable.
  unfold as_str. unfold mbind, M_bind, mret, M_ret. cbn beta iota.
  rewrite Hg. cbn beta iota.
  unfold get_columns, emit, lift, mbind, M_bind, mret, M_ret. rewrite Hconn.
  cbn beta iota. destruct (odbc_columns drv h table) as [e|rows];
    [reflexivity |].
  cbn beta iota. rewrite map_map. reflexivity.
Qed.

Lemma describe_table_answer_witness :
  exists r st',
    call_tool Demo.driver Demo.cfg Demo.repr "describe_table"
      [("database", PStr "Patients"); ("table", PStr "Main")] initial_state
    = (inr r, st')
    /\ isError r = false
    /\ trace st' = [EvConnect (target_string Demo.cfg "Patients");
                    EvColumns 39%nat "Main"].
Proof.
  eexists. eexists. split; [| split].
  - eapply (describe_table_answer Demo.driver Demo.cfg Demo.repr
              [("database", PStr "Patients"); ("table", PStr "Main")]
              initial_state).
    + reflexivity.
    + reflexivity.
    + eapply get_connection_fresh; reflexivity.
    + reflexivity.
  - reflexivity.
  - reflexivity.
Defined.

(** ** Names and databases *)

(** X21.  The registry is keyed by the name asked for, not by the database
    reached.  The empty name reaches the configured default database; when
    that default is set, asking first for the empty name and then for the
    default database by its name opens two connections with the same
    connection string and registers two separate connection objects. *)
Theorem default_database_registered_twice (drv : Driver) (cfg : FileMakerConfig)
    (st : state) (h : handle) :
  database cfg <> "" ->
  connections st !! "" = None ->
  connections st !! database cfg = None ->
  odbc_connect drv (target_string cfg "") = inr h ->
  target_string cfg "" = target_string cfg (database cfg)
  /\ exists c1 st1 c2 st2,
       get_connection drv cfg "" st = (inr c1, st1)
       /\ get_connection drv cfg (database cfg) st1 = (inr c2, st2)
       /\ oid c1 <> oid c2
       /\ connections st2 !! "" = Some c1
       /\ connections st2 !! database cfg = Some c2
       /\ trace st2 = trace st ++ [EvConnect (target_string cfg "");
                                   EvConnect (target_string cfg "")].
Proof.
  intros Hset Hnone1 Hnone2 Hd.
  assert (Hsame : target_string cfg "" = target_string cfg (database cfg)).
  { unfold target_string. cbn [String.eqb negb].
    destruct (String.eqb_spec (database cfg) ""); [contradiction | reflexivity]. }
  split; [exact Hsame |].
  pose proof (get_connection_fresh drv cfg "" st h Hnone1 Hd) as H1.
  cbv zeta in H1.
  eexists. eexists. eexists. eexists. split; [exact H1 |].
  split.
  - apply get_connection_fresh.
    + cbn [connections]. rewrite lookup_insert_ne; [exact Hnone2 | congruence].
    + rewrite <- Hsame. exact Hd.
  - cbn [oid connections trace next_oid]. split; [lia |].
    split.
    + rewrite lookup_insert_ne by congruence. apply lookup_insert_eq.
    + split; [apply lookup_insert_eq |].
      rewrite <- Hsame, <- app_assoc. reflexivity.
Qed.

Lemma default_database_registered_twice_witness :
  exists c1 st1 c2 st2,
    get_connection Demo.driver
      {| dsn := "FileMaker"; username := ""; password := ""; database := "Open" |}
      "" initial_state = (inr c1, st1)
    /\ get_connection Demo.driver
         {| dsn := "FileMaker"; username := ""; password := ""; database := "Open" |}
         "Open" st1 = (inr c2, st2)
    /\ oid c1 <> oid c2
    /\ connects (trace st2) = ["DSN=FileMaker;ServerDataSource=Open";
                               "DSN=FileMaker;ServerDataSource=Open"].
Proof.
  edestruct (default_database_registered_twice Demo.driver
               {| dsn := "FileMaker"; username := ""; password := "";
                  database := "Open" |} initial_state)
    as (_ & c1 & st1 & c2 & st2 & H1 & H2 & Hne & _ & _ & Htrace).
  - discriminate.
  - reflexivity.
  - reflexivity.
  - reflexivity.
  - exists c1, st1, c2, st2. split; [exact H1 |]. split; [exact H2 |].
    split; [exact Hne |]. rewrite Htrace. reflexivity.
Defined.

(** ** The report generator *)

Section Counting.

Context {K : Type} (eqb : K -> K -> bool).

Lemma total_count_bump k (counts : list (K * Z)) :
  total_count (bump eqb k counts) = total_count counts + 1.
Proof.
  induction counts as [|[k' c] rest IH]; simpl.
  - reflexivity.
  - destruct (eqb k k'); simpl.
    + unfold total_count. simpl. lia.
    + unfold total_count in *. simpl. rewrite IH. lia.
Qed.

Lemma bump_positive k (counts : list (K * Z)) :
  Forall (fun kc => 1 <= snd kc) counts ->
  Forall (fun kc => 1 <= snd kc) (bump eqb k counts).
Proof.
  induction counts as [|[k' c] rest IH]; simpl; intros H.
  - constructor; [simpl; lia | constructor].
  - inversion H as [|? ? Hc Hrest]; subst. simpl in Hc.
    destruct (eqb k k').
    + constructor; [simpl; lia | exact Hrest].
    + constructor; [exact Hc | apply IH, Hrest].
Qed.

Lemma bump_keys_from k (counts : list (K * Z)) (P : K -> Prop) :
  P k -> Forall (fun kc => P (fst kc)) counts ->
  Forall (fun kc => P (fst kc)) (bump eqb k counts).
Proof.
  intros Hk.
  induction counts as [|[k' c] rest IH]; simpl; intros H.
  - constructor; [exact Hk | constructor].
  - inversion H as [|? ? Hc Hrest]; subst.
    destruct (eqb k k'); constructor; auto.
Qed.

End Counting.

Lemma count_of_bump d k counts :
  count_of d (bump String.eqb k counts)
  = count_of d counts + (if String.eqb d k then 1 else 0).
Proof.
  unfold count_of.
  induction counts as [|[k' c] rest IH]; simpl.
  - destruct (String.eqb d k); reflexivity.
  - destruct (String.eqb k k') eqn:E; simpl.
    + apply String.eqb_eq in E. subst k'.
      destruct (String.eqb d k); simpl; lia.
    + destruct (String.eqb d k') eqn:E'; simpl.
      * apply String.eqb_eq in E'. subst k'.
        rewrite String.eqb_sym, E. lia.
      * exact IH.
Qed.

Lemma bump_keys k counts :
  NoDup (map fst counts) ->
  NoDup (map fst (bump String.eqb k counts)) /\
  (forall d, d ∈ map fst (bump String.eqb k counts)
             <-> d = k \/ d ∈ map fst counts).
Proof.
  induction counts as [|[k' c] rest IH]; simpl; intros Hnd.
  - split; [apply NoDup_singleton|]. intros d. rewrite list_elem_of_singleton.
    rewrite elem_of_nil. tauto.
  - apply NoDup_cons in Hnd as [Hnotin Hnd].
    destruct (String.eqb k k') eqn:E; simpl.
    + apply String.eqb_eq in E. subst k'.
      split; [apply NoDup_cons; auto|].
      intros d. rewrite elem_of_cons. tauto.
    + apply String.eqb_neq in E.
      destruct (IH Hnd) as [IHnd IHin].
      split.
      * apply NoDup_cons. split; [|exact IHnd].
        rewrite IHin. intros [->|H]; [congruence | auto].
      * intros d. rewrite !elem_of_cons, IHin. tauto.
Qed.

Lemma dict_get_elem_of d (c : Z) counts :
  NoDup (map fst counts) ->
  (d, c) ∈ counts <-> dict_get d counts = Some c.
Proof.
  induction counts as [|[k' c'] rest IH]; simpl; intros Hnd.
  - rewrite elem_of_nil. split; [tauto | discriminate].
  - apply NoDup_cons in Hnd as [Hnotin Hnd].
    rewrite elem_of_cons.
    destruct (String.eqb d k') eqn:E.
    + apply String.eqb_eq in E. subst k'. split.
      * intros [H|H]; [congruence|].
        exfalso. apply Hnotin. apply list_elem_of_fmap. exists (d, c). auto.
      * intros H. left. congruence.
    + apply String.eqb_neq in E. rewrite <- (IH Hnd). split.
      * intros [H|H]; [congruence | exact H].
      * auto.
Qed.

#[local] Instance item_le_trans : Transitive item_le.
Proof.
  intros a b c [Hab Hab'] [Hbc Hbc']. split.
  - etransitivity; eassumption.
  - intros E.
    assert (fst a = fst b) as Eab.
    { apply (anti_symm String.le); [exact Hab|]. rewrite E. exact Hbc. }
    assert (fst b = fst c) as Ebc by congruence.
    specialize (Hab' Eab). specialize (Hbc' Ebc). lia.
Qed.

#[local] Instance item_le_total : Total item_le.
Proof.
  intros a b. unfold item_le.
  destruct (decide (fst a = fst b)) as [E|E].
  - destruct (Z.le_ge_cases (snd a) (snd b)).
    + left. split; [rewrite E; reflexivity | auto].
    + right. split; [rewrite E; reflexivity | auto].
  - destruct (total String.le (fst a) (fst b)).
    + left. split; [assumption | intros; contradiction].
    + right. split; [assumption | intros E'; symmetry in E'; contradiction].
Qed.

Lemma total_count_Permutation {K : Type} (a b : list (K * Z)) :
  a ≡ₚ b -> total_count a = total_count b.
Proof.
  unfold total_count.
  induction 1 as [|x a b _ IH|x y a|a b c _ IH1 _ IH2]; simpl; lia.
Qed.

Lemma sorted_items_keys counts :
  NoDup (map fst counts) ->
  StronglySorted text_lt (map fst (Reports.sorted_items counts)).
Proof.
  intros Hnd. unfold Reports.sorted_items.
  assert (NoDup (map fst (merge_sort item_le counts))) as Hnd'.
  { rewrite (merge_sort_Permutation item_le counts). exact Hnd. }
  pose proof (StronglySorted_merge_sort item_le counts) as Hs.
  induction Hs as [|x l Hs IH Hall]; simpl.
  - constructor.
  - simpl in Hnd'. apply NoDup_cons in Hnd' as [Hnotin Hnd'].
    constructor; [apply IH, Hnd'|].
    apply Forall_fmap. apply Forall_forall. intros y Hy. simpl.
    rewrite Forall_forall in Hall. destruct (Hall y Hy) as [Hle _].
    split; [exact Hle|].
    intros E. apply Hnotin. rewrite E. apply list_elem_of_fmap. eauto.
Qed.

(** The dictionary the counting loop builds from the texts it meets. *)
Lemma tally_spec dates : forall counts,
  NoDup (map fst counts) -> Forall (fun kc => 1 <= snd kc) counts ->
  let out := fold_left (fun c d => bump String.eqb d c) dates counts in
  NoDup (map fst out) /\ Forall (fun kc => 1 <= snd kc) out /\
  (forall d, count_of d out = count_of d counts + occurrences d dates) /\
  (forall d, d ∈ map fst out <-> d ∈ dates \/ d ∈ map fst counts) /\
  total_count out = total_count counts + Z.of_nat (length dates).
Proof.
  induction dates as [|x dates IH]; intros counts Hnd Hpos; simpl.
  - split; [exact Hnd|]. split; [exact Hpos|]. split; [|split].
    + intros d. unfold occurrences. simpl. lia.
    + intros d. rewrite elem_of_nil. tauto.
    + lia.
  - destruct (bump_keys x counts Hnd) as [Hnd1 Hin1].
    pose proof (bump_positive String.eqb x counts Hpos) as Hpos1.
    destruct (IH _ Hnd1 Hpos1) as (Hnd2 & Hpos2 & Hcount & Hin & Htotal).
    split; [exact Hnd2|]. split; [exact Hpos2|]. split; [|split].
    + intros d. rewrite Hcount, count_of_bump. unfold occurrences.
      rewrite filter_cons.
      destruct (String.eqb d x) eqn:E.
      * apply String.eqb_eq in E. subst x.
        rewrite decide_True by reflexivity. simpl length. lia.
      * apply String.eqb_neq in E.
        rewrite decide_False by congruence. lia.
    + intros d. rewrite Hin, Hin1, elem_of_cons. tauto.
    + rewrite Htotal, total_count_bump. lia.
Qed.

Lemma occurrences_positive d dates : d ∈ dates <-> 1 <= occurrences d dates.
Proof.
  unfold occurrences. induction dates as [|x dates IH].
  - simpl. rewrite elem_of_nil. split; [tauto | lia].
  - rewrite filter_cons, elem_of_cons.
    destruct (decide (x = d)) as [E|E]; simpl length.
    + split; [lia | auto].
    + rewrite IH. split; [intros [H|H]; [congruence | exact H] | auto].
Qed.

(** What the items of the finished dictionary are. *)
Lemma tally_items dates d c :
  let out := fold_left (fun c d => bump String.eqb d c) dates [] in
  (d, c) ∈ out <-> c = occurrences d dates /\ 1 <= c.
Proof.
  intros out.
  destruct (tally_spec dates [] (NoDup_nil_2) (Forall_nil_2 _))
    as (Hnd & Hpos & Hcount & Hin & _).
  fold out in Hnd, Hpos, Hcount, Hin.
  rewrite (dict_get_elem_of d c out Hnd).
  specialize (Hcount d). unfold count_of in Hcount. simpl in Hcount.
  split.
  - intros H. rewrite H in Hcount. simpl in Hcount. split; [lia|].
    rewrite Forall_forall in Hpos.
    apply (dict_get_elem_of d c out Hnd) in H. apply (Hpos _ H).
  - intros [-> Hc]. apply occurrences_positive in Hc.
    assert (d ∈ map fst out) as Hd by (apply Hin; auto).
    apply list_elem_of_fmap in Hd as ([d' c'] & E & Hd). simpl in E. subst d'.
    apply (dict_get_elem_of d c' out Hnd) in Hd.
    rewrite Hd in Hcount. simpl in Hcount. rewrite Hd. f_equal. lia.
Qed.

Ltac run_reports :=
  unfold mbind, Reports.M_bind, mret, Reports.M_ret, Reports.emit,
    Reports.lift, Reports.raise, Reports.get_connections,
    Reports.set_connections;
  cbn [fst snd Reports.connections Reports.trace].

Section Generator_runs.

Variable drv : Driver.
Variable odbc_close : handle -> exn + unit.
Variable env : Reports.settings.
Variable container_repr : pyval -> string.

Lemma reports_get_connection_cached database h st :
  dict_get database (Reports.connections st) = Some h ->
  Reports.get_connection drv env database st = (inr h, st).
Proof.
  intros H. unfold Reports.get_connection. run_reports.
  rewrite H. cbn. rewrite H. reflexivity.
Qed.

Lemma reports_get_connection_fresh database h st :
  dict_get database (Reports.connections st) = None ->
  odbc_connect drv (report_target env database) = inr h ->
  Reports.get_connection drv env database st
  = (inr h, {| Reports.connections :=
                 dict_set database h (Reports.connections st);
               Reports.trace :=
                 Reports.trace st
                 ++ [Reports.Connect (report_target env database)] |}).
Proof.
  intros H Hc. unfold Reports.get_connection. run_reports.
  rewrite H. fold (report_target env database). rewrite Hc. cbn.
  rewrite dict_get_set_eq. reflexivity.
Qed.

Lemma reports_get_connection_refused database e st :
  dict_get database (Reports.connections st) = None ->
  odbc_connect drv (report_target env database) = inl e ->
  Reports.get_connection drv env database st
  = (inl (Reports.DriverError e),
     {| Reports.connections := Reports.connections st;
        Reports.trace :=
          Reports.trace st
          ++ [Reports.Connect (report_target env database)] |}).
Proof.
  intros H Hc. unfold Reports.get_connection. run_reports.
  rewrite H. fold (report_target env database). rewrite Hc. reflexivity.
Qed.

(** How a call of [get_connection] ends. *)
Lemma reports_get_connection_cases database st :
  (exists h, dict_get database (Reports.connections st) = Some h /\
     Reports.get_connection drv env database st = (inr h, st)) \/
  (exists h, dict_get database (Reports.connections st) = None /\
     odbc_connect drv (report_target env database) = inr h /\
     Reports.get_connection drv env database st
     = (inr h, {| Reports.connections :=
                    dict_set database h (Reports.connections st);
                  Reports.trace :=
                    Reports.trace st
                    ++ [Reports.Connect (report_target env database)] |})) \/
  (exists e, dict_get database (Reports.connections st) = None /\
     odbc_connect drv (report_target env database) = inl e /\
     Reports.get_connection drv env database st
     = (inl (Reports.DriverError e),
        {| Reports.connections := Reports.connections st;
           Reports.trace :=
             Reports.trace st
             ++ [Reports.Connect (report_target env database)] |})).
Proof.
  destruct (dict_get database (Reports.connections st)) as [h|] eqn:H.
  - left. exists h. split; [reflexivity|].
    apply reports_get_connection_cached, H.
  - destruct (odbc_connect drv (report_target env database)) as [e|h] eqn:Hc.
    + right. right. exists e. split; [reflexivity|]. split; [reflexivity|].
      apply reports_get_connection_refused; assumption.
    + right. left. exists h. split; [reflexivity|]. split; [reflexivity|].
      apply reports_get_connection_fresh; assumption.
Qed.

Lemma close_each_done handles st :
  Forall (fun h => odbc_close h = inr tt) handles ->
  Reports.close_each odbc_close handles st
  = (inr tt, {| Reports.connections := Reports.connections st;
                Reports.trace :=
                  Reports.trace st ++ map Reports.Close handles |}).
Proof.
  revert st. induction handles as [|h rest IH]; intros st Hall; simpl.
  - run_reports. rewrite app_nil_r. destruct st; reflexivity.
  - inversion Hall as [|? ? Hh Hrest]; subst.
    run_reports. rewrite Hh. rewrite (IH _ Hrest). cbn.
    rewrite <- app_assoc. reflexivity.
Qed.

Lemma close_each_stops before h after e st :
  Forall (fun h => odbc_close h = inr tt) before ->
  odbc_close h = inl e ->
  Reports.close_each odbc_close (before ++ h :: after) st
  = (inl (Reports.DriverError e),
     {| Reports.connections := Reports.connections st;
        Reports.trace :=
          Reports.trace st ++ map Reports.Close (before ++ [h]) |}).
Proof.
  revert st. induction before as [|h0 rest IH]; intros st Hall He; simpl.
  - run_reports. rewrite He. reflexivity.
  - inversion Hall as [|? ? Hh Hrest]; subst.
    run_reports. rewrite Hh. rewrite (IH _ Hrest He). cbn.
    rewrite <- app_assoc. reflexivity.
Qed.

Lemma count_dates_run rows : forall counts st out st',
  Reports.count_dates container_repr rows counts st = (inr out, st') ->
  st' = st /\
  length (date_texts container_repr rows) = length rows /\
  out = fold_left (fun c d => bump String.eqb d c)
          (date_texts container_repr rows) counts.
Proof.
  induction rows as [|row rest IH]; intros counts st out st' H; simpl in H.
  - inversion H; subst. auto.
  - unfold Reports.item in H. revert H. run_reports.
    unfold date_texts. simpl.
    destruct (row !! 0%nat) as [v|] eqn:E; simpl; [|discriminate].
    intros H. apply IH in H as (-> & Hlen & ->).
    unfold date_texts in Hlen.
    split; [reflexivity|]. split; [f_equal; exact Hlen | reflexivity].
Qed.

Lemma count_column_run i fallback rows : forall counts st out st',
  truthy (PStr fallback) = true ->
  Reports.count_column i fallback rows counts st = (inr out, st') ->
  Forall (fun kc => truthy (fst kc) = true /\ 1 <= snd kc) counts ->
  st' = st /\
  total_count out = total_count counts + Z.of_nat (length rows) /\
  Forall (fun kc => truthy (fst kc) = true /\ 1 <= snd kc) out.
Proof.
  induction rows as [|row rest IH]; intros counts st out st' Hfb H Hall;
    simpl in H.
  - inversion H; subst. split; [reflexivity|]. split; [simpl; lia | exact Hall].
  - unfold Reports.item in H. revert H. run_reports.
    destruct (row !! i) as [v|] eqn:E; simpl; [|discriminate].
    set (k := if truthy v then v else PStr fallback).
    assert (truthy k = true) as Hk.
    { unfold k. destruct (truthy v) eqn:Ev; [exact Ev | exact Hfb]. }
    unfold Reports.as_key. run_reports.
    destruct k eqn:Ek; try discriminate; intros H;
      (apply IH in H as (-> & Htotal & Hout); [| exact Hfb |]);
      try (split; [reflexivity|]; split;
           [rewrite Htotal, total_count_bump; simpl length; lia | exact Hout]).
    all: apply Forall_and; split.
    all: try (apply (bump_keys_from key_eqb _ counts (fun k => truthy k = true));
              [exact Hk | apply Forall_and in Hall; apply Hall]).
    all: apply bump_positive; apply Forall_and in Hall; apply Hall.
Qed.

End Generator_runs.

Section Generator_figures.

Variable drv : Driver.
Variable env : Reports.settings.




Lemma connected_app t1 t2 : connected (t1 ++ t2) = connected t1 ++ connected t2.
Proof. apply omap_app. Qed.

Lemma closed_app t1 t2 : closed (t1 ++ t2) = closed t1 ++ closed t2.
Proof. apply omap_app. Qed.

Lemma closed_map_Close hs : closed (map Reports.Close hs) = hs.
Proof. induction hs as [|h hs IH]; simpl; [reflexivity | f_equal; exact IH]. Qed.

End Generator_figures.

(** X22. [FileMakerReports.get_connection] connects to a database once: a
    call that returns leaves the handle registered under the name, a second
    call returns the same handle without a call to the driver, the driver
    was called (with the connection string of the database) only when the
    name was not registered before, and no other name's entry changes. *)
Theorem reports_get_connection_reuses drv env database st h st' :
  Reports.get_connection drv env database st = (inr h, st') ->
  dict_get database (Reports.connections st') = Some h /\
  Reports.get_connection drv env database st' = (inr h, st') /\
  connected (Reports.trace st')
  = connected (Reports.trace st)
    ++ match dict_get database (Reports.connections st) with
       | Some _ => []
       | None => [report_target env database]
       end /\
  (forall other, other <> database ->
     dict_get other (Reports.connections st')
     = dict_get other (Reports.connections st)).
Proof.
  intros H.
  destruct (reports_get_connection_cases drv env database st)
    as [(h0 & Hreg & Hrun) | [(h0 & Hreg & Hc & Hrun) | (e & Hreg & Hc & Hrun)]];
    rewrite Hrun in H; inversion H; subst; clear H.
  - rewrite Hreg. rewrite app_nil_r. auto.
  - cbn [Reports.connections Reports.trace].
    assert (dict_get database (dict_set database h (Reports.connections st))
            = Some h) as Hnow by apply dict_get_set_eq.
    split; [exact Hnow|].
    split; [apply reports_get_connection_cached; exact Hnow|].
    split.
    + rewrite Hreg, connected_app. reflexivity.
    + intros other Hne. apply dict_get_set_ne, Hne.
Qed.

Lemma reports_get_connection_reuses_witness :
  let st1 := {| Reports.connections := [("Patients", 49%nat)];
                Reports.trace :=
                  [Reports.Connect (report_target ReportsDemo.env "Patients")] |} in
  Reports.get_connection ReportsDemo.driver ReportsDemo.env "Patients" st1
  = (inr 49%nat, st1).
Proof.
  intros st1.
  destruct (reports_get_connection_reuses ReportsDemo.driver ReportsDemo.env
              "Patients" Reports.initial 49%nat st1) as (_ & H & _).
  - vm_compute. reflexivity.
  - exact H.
Defined.

(** X23. When every [close] succeeds, [close_all] closes each registered
    connection once, in the order of registration, and empties the registry,
    so that the next [get_connection] calls the driver again, whatever the
    database. *)
Theorem close_all_closes_every_connection drv odbc_close env st :
  Forall (fun h => odbc_close h = inr tt)
    (dict_values (Reports.connections st)) ->
  exists st',
    Reports.close_all odbc_close st = (inr tt, st') /\
    Reports.connections st' = [] /\
    closed (Reports.trace st')
    = closed (Reports.trace st) ++ dict_values (Reports.connections st) /\
    forall database,
      connected (Reports.trace
                   (snd (Reports.get_connection drv env database st')))
      = connected (Reports.trace st') ++ [report_target env database].
Proof.
  intros Hall. unfold Reports.close_all. run_reports.
  rewrite (close_each_done odbc_close _ st Hall). cbn.
  eexists. split; [reflexivity|]. cbn.
  split; [reflexivity|]. split.
  - rewrite closed_app, closed_map_Close. reflexivity.
  - intros database.
    match goal with
    | |- context [Reports.get_connection _ _ _ ?s] => set (s1 := s)
    end.
    destruct (reports_get_connection_cases drv env database s1)
      as [(h0 & Hreg & _) | [(h0 & _ & _ & Hrun) | (e & _ & _ & Hrun)]].
    + discriminate Hreg.
    + rewrite Hrun. cbn. rewrite connected_app. reflexivity.
    + rewrite Hrun. cbn. rewrite connected_app. reflexivity.
Qed.

Lemma close_all_closes_every_connection_witness :
  exists st',
    Reports.close_all (fun _ => inr tt) ReportsDemo.open = (inr tt, st') /\
    Reports.connections st' = [] /\
    closed (Reports.trace st') = [1%nat; 2%nat; 3%nat] /\
    forall database,
      connected (Reports.trace
                   (snd (Reports.get_connection ReportsDemo.driver
                           ReportsDemo.env database st')))
      = connected (Reports.trace st')
        ++ [report_target ReportsDemo.env database].
Proof.
  apply (close_all_closes_every_connection ReportsDemo.driver (fun _ => inr tt)
           ReportsDemo.env ReportsDemo.open).
  repeat constructor.
Defined.

(** X24. When a [close] raises, [close_all] stops there: the exception
    goes to the caller, the connections registered after the failing one are
    not closed, and the registry is not emptied, so that [get_connection]
    still returns every registered handle, the closed ones among them,
    without a call to the driver. *)
Theorem close_all_failure_keeps_registry drv odbc_close env st before h after e :
  dict_values (Reports.connections st) = before ++ h :: after ->
  Forall (fun h => odbc_close h = inr tt) before ->
  odbc_close h = inl e ->
  exists st',
    Reports.close_all odbc_close st = (inl (Reports.DriverError e), st') /\
    Reports.connections st' = Reports.connections st /\
    closed (Reports.trace st') = closed (Reports.trace st) ++ before ++ [h] /\
    forall database h',
      dict_get database (Reports.connections st) = Some h' ->
      Reports.get_connection drv env database st' = (inr h', st').
Proof.
  intros Hvalues Hbefore He. unfold Reports.close_all. run_reports.
  rewrite Hvalues.
  rewrite (close_each_stops odbc_close before h after e st Hbefore He).
  eexists. split; [reflexivity|]. cbn.
  split; [reflexivity|]. split.
  - rewrite closed_app, closed_map_Close. reflexivity.
  - intros database h' Hreg. apply reports_get_connection_cached. exact Hreg.
Qed.

Lemma close_all_failure_keeps_registry_witness :
  exists st',
    Reports.close_all ReportsDemo.close ReportsDemo.open
    = (inl (Reports.DriverError
              (OdbcError "[08S01] Communication link failure")), st') /\
    Reports.connections st' = Reports.connections ReportsDemo.open /\
    closed (Reports.trace st') = [1%nat; 2%nat] /\
    forall database h',
      dict_get database (Reports.connections ReportsDemo.open) = Some h' ->
      Reports.get_connection ReportsDemo.driver ReportsDemo.env database st'
      = (inr h', st').
Proof.
  apply (close_all_failure_keeps_registry ReportsDemo.driver ReportsDemo.close
           ReportsDemo.env ReportsDemo.open [1%nat] 2%nat [3%nat]).
  - reflexivity.
  - repeat constructor.
  - reflexivity.
Defined.

Section Generator_reports.

Variable drv : Driver.
Variable env : Reports.settings.
Variable container_repr : pyval -> string.

(** A report that reads rows got its connection, sent its statement once
    and was given a result set. *)
Lemma rows_fetched sql params {A : Type}
    (k : handle -> list (list pyval) -> Reports.M A) st (a : A) st' :
  (conn ← Reports.get_connection drv env "Appointments";
   res ← Reports.execute drv conn sql params;
   rows ← Reports.fetchall conn res;
   k conn rows) st = (inr a, st') ->
  exists h res st1,
    odbc_execute drv h sql params = inr res /\
    k h (pending res) st1 = (inr a, st').
Proof.
  run_reports.
  destruct (Reports.get_connection drv env "Appointments" st) as [[e|h] st0];
    [discriminate|].
  unfold Reports.execute, Reports.fetchall. run_reports.
  destruct (odbc_execute drv h sql params) as [e|res] eqn:Hx; [discriminate|].
  destruct (description res); [|discriminate].
  intros H. eauto.
Qed.

End Generator_reports.

(** X25. The list [get_appointment_range] returns has one entry for each
    date text met in the rows the driver gave, in strictly ascending order
    of the text; the count of an entry is the number of rows with that text,
    never zero, and the counts add up to the number of rows. *)
Theorem get_appointment_range_counts drv env container_repr
    start_date end_date st result st' :
  Reports.get_appointment_range drv env container_repr start_date end_date st
  = (inr result, st') ->
  exists h res items,
    odbc_execute drv h Reports.range_sql [start_date; end_date] = inr res /\
    result
    = map (fun dc => [("date", PStr (fst dc)); ("count", PInt (snd dc))])
        items /\
    StronglySorted text_lt (map fst items) /\
    (forall d c,
       (d, c) ∈ items
       <-> c = occurrences d (date_texts container_repr (pending res))
           /\ 1 <= c) /\
    total_count items = Z.of_nat (length (pending res)).
Proof.
  intros H. unfold Reports.get_appointment_range in H.
  apply (rows_fetched drv env Reports.range_sql [start_date; end_date]
           (fun _ rows =>
              counts ← Reports.count_dates container_repr rows [];
              mret (map (fun dc => [("date", PStr (fst dc));
                                     ("count", PInt (snd dc))])
                      (Reports.sorted_items counts))))
    in H as (h & res & st1 & Hx & H).
  revert H. run_reports.
  destruct (Reports.count_dates container_repr (pending res) [] st1)
    as [[e|counts] st2] eqn:Hc; [discriminate|].
  intros H. inversion H; subst; clear H.
  apply count_dates_run in Hc as (-> & Hlen & Hcounts).
  set (dates := date_texts container_repr (pending res)) in *.
  destruct (tally_spec dates [] NoDup_nil_2 (Forall_nil_2 _))
    as (Hnd & _ & _ & _ & Htotal).
  cbv zeta in Hnd, Htotal. rewrite <- Hcounts in Hnd, Htotal.
  exists h, res, (Reports.sorted_items counts).
  split; [exact Hx|]. split; [reflexivity|].
  split; [apply sorted_items_keys, Hnd|]. split.
  - intros d c. unfold Reports.sorted_items.
    rewrite (merge_sort_Permutation item_le counts), Hcounts.
    apply tally_items.
  - unfold Reports.sorted_items.
    rewrite (total_count_Permutation _ _ (merge_sort_Permutation item_le counts)).
    rewrite Htotal, Hlen. reflexivity.
Qed.

Lemma get_appointment_range_counts_witness :
  exists h res items,
    odbc_execute ReportsDemo.driver h Reports.range_sql
      [PStr "2024-03-01"; PStr "2024-03-31"] = inr res /\
    [[("date", PStr "2024-03-01"); ("count", PInt 1)];
     [("date", PStr "2024-03-02"); ("count", PInt 2)]]
    = map (fun dc => [("date", PStr (fst dc)); ("count", PInt (snd dc))])
        items /\
    StronglySorted text_lt (map fst items) /\
    (forall d c,
       (d, c) ∈ items
       <-> c = occurrences d (date_texts Demo.repr (pending res)) /\ 1 <= c) /\
    total_count items = Z.of_nat (length (pending res)).
Proof.
  eapply (get_appointment_range_counts ReportsDemo.driver ReportsDemo.env
            Demo.repr (PStr "2024-03-01") (PStr "2024-03-31") Reports.initial).
  vm_compute. reflexivity.
Defined.

(** X26. In the figures of [get_daily_appointments] every row the driver
    gave is counted once under a doctor and once under an exam type: the
    total is the number of rows, the counts of each grouping add up to it,
    no group has an empty name (an empty value counts under the fallback
    name) and no group has the count zero. *)
Theorem get_daily_appointments_totals drv env today date_arg st report st' :
  Reports.get_daily_appointments drv env today date_arg st
  = (inr report, st') ->
  exists h res,
    odbc_execute drv h Reports.daily_sql [default (PStr today) date_arg]
    = inr res /\
    Reports.date report = default (PStr today) date_arg /\
    Reports.total_appointments report = Z.of_nat (length (pending res)) /\
    total_count (Reports.by_doctor report)
    = Reports.total_appointments report /\
    total_count (Reports.by_exam_type report)
    = Reports.total_appointments report /\
    Forall (fun kc => truthy (fst kc) = true /\ 1 <= snd kc)
      (Reports.by_doctor report ++ Reports.by_exam_type report).
Proof.
  intros H. unfold Reports.get_daily_appointments in H.
  set (date := match date_arg with Some d => d | None => PStr today end) in *.
  apply (rows_fetched drv env Reports.daily_sql [date]
           (fun _ rows =>
              by_doctor ← Reports.count_column 0 "Unassigned" rows [];
              by_type ← Reports.count_column 1 "Unspecified" rows [];
              mret {| Reports.date := date;
                      Reports.total_appointments := Z.of_nat (length rows);
                      Reports.by_doctor := by_doctor;
                      Reports.by_exam_type := by_type |}))
    in H as (h & res & st1 & Hx & H).
  revert H. run_reports.
  destruct (Reports.count_column 0 "Unassigned" (pending res) [] st1)
    as [[e|doctors] st2] eqn:Hd; [discriminate|].
  destruct (Reports.count_column 1 "Unspecified" (pending res) [] st2)
    as [[e|types] st3] eqn:Ht; [discriminate|].
  intros H. inversion H; subst; clear H.
  apply count_column_run in Hd as (-> & Hdt & Hdk);
    [| reflexivity | constructor].
  apply count_column_run in Ht as (-> & Htt & Htk);
    [| reflexivity | constructor].
  exists h, res.
  cbn [Reports.date Reports.total_appointments Reports.by_doctor
       Reports.by_exam_type].
  split; [exact Hx|]. split; [reflexivity|]. split; [reflexivity|].
  split; [rewrite Hdt; reflexivity|].
  split; [rewrite Htt; reflexivity|].
  apply Forall_app. auto.
Qed.

Lemma get_daily_appointments_totals_witness :
  exists h res,
    odbc_execute ReportsDemo.driver h Reports.daily_sql
      [default (PStr "2024-03-02") None] = inr res /\
    PStr "2024-03-02" = default (PStr "2024-03-02") None /\
    3 = Z.of_nat (length (pending res)) /\
    total_count [(PStr "Lee", 2); (PStr "Unassigned", 1)] = 3 /\
    total_count [(PStr "Exam", 1); (PStr "Unspecified", 1);
                 (PStr "Recall", 1)] = 3 /\
    Forall (fun kc => truthy (fst kc) = true /\ 1 <= snd kc)
      ([(PStr "Lee", 2); (PStr "Unassigned", 1)]
       ++ [(PStr "Exam", 1); (PStr "Unspecified", 1); (PStr "Recall", 1)]).
Proof.
  apply (get_daily_appointments_totals ReportsDemo.driver ReportsDemo.env
           "2024-03-02" None Reports.initial
           {| Reports.date := PStr "2024-03-02";
              Reports.total_appointments := 3;
              Reports.by_doctor := [(PStr "Lee", 2); (PStr "Unassigned", 1)];
              Reports.by_exam_type :=
                [(PStr "Exam", 1); (PStr "Unspecified", 1);
                 (PStr "Recall", 1)] |}
           {| Reports.connections := [("Appointments", 53%nat)];
              Reports.trace :=
                [Reports.Connect
                   (report_target ReportsDemo.env "Appointments");
                 Reports.Execute 53%nat Reports.daily_sql [PStr "2024-03-02"];
                 Reports.FetchAll 53%nat] |}).
  vm_compute. reflexivity.
Defined.


